(** * Bus ticket booking: a shallow embedding of
      [BUS_TICKET_BOOKING_SYSTEM_SOURSE_CODE.py]

    The program keeps two SQLite tables ([buses], [tickets]) behind a single
    process-wide connection and exposes [add_bus], [book_ticket],
    [view_buses] and [view_bookings] to a Gradio front end.

    Modelling choices, in the order of the source:
    - a Python [str] is the sequence of its UTF-8 bytes (a Rocq [string]);
      this is also how SQLite stores and compares [TEXT] under the default
      [BINARY] collation.  Only text that can be encoded has a value here: a
      [str] with a lone surrogate, which sqlite3 refuses to bind, is outside
      the model;
    - the text arguments ([bus_name], [from_city], [to_city],
      [passenger_name], [travel_date]) range over [None] and [str], which is
      what [gr.Text] and [gr.Dropdown] deliver;
    - the numeric arguments ([total_seats], [seat_number]) range over [None],
      [str], [int] and [float];
    - a [float] is an exact binary value [m * 2^e], an infinity or a NaN, so
      that [int(x)] is exact truncation and no rounding is ever approximated;
    - the two tables are lists of rows in rowid order; a statement either
      appends one row or raises and changes nothing;
    - a call either returns one of the source's message strings or lets an
      exception escape. *)

From Stdlib Require Import ZArith List String Ascii Bool Lia.
From Stdlib Require Import Sorting.Sorted Sorting.Permutation Sorting.Mergesort.
From Stdlib Require Import Structures.Orders DecimalString.
Import ListNotations.

Local Open Scope Z_scope.

(** ** Python values *)

Module Py.

(** A binary64 value: [FFinite m e] stands for [m * 2^e]. *)
Inductive pyfloat : Type :=
| FNaN
| FInf (negative : bool)
| FFinite (m e : Z).

(** [FFinite m e] is a value a binary64 can hold. *)
Definition is_binary64 (m e : Z) : bool :=
  (Z.abs m <? 2 ^ 53) && (-1074 <=? e) && (e <=? 971).

Inductive pyval : Type :=
| PNone
| PStr (s : string)
| PInt (z : Z)
| PFloat (f : pyfloat).

(** The exceptions the two operations can meet. *)
Inductive pyexn : Type :=
| ValueError
| TypeError
| OverflowError
| AttributeError
| IntegrityError.

(** A computation that returns or raises. *)
Inductive result (A : Type) : Type :=
| Ok (a : A)
| Exn (e : pyexn).
Arguments Ok {A} a.
Arguments Exn {A} e.

Definition bind {A B : Type} (c : result A) (k : A -> result B) : result B :=
  match c with
  | Ok a => k a
  | Exn e => Exn e
  end.

(** Truth value of a text argument: [None] and [''] are false. *)
Definition text_truthy (t : option string) : bool :=
  match t with
  | None => false
  | Some EmptyString => false
  | Some (String _ _) => true
  end.

(** Truth value of a numeric argument: [None], [''], [0] and [0.0] are
    false; NaN and the infinities are true. *)
Definition truthy (v : pyval) : bool :=
  match v with
  | PNone => false
  | PStr EmptyString => false
  | PStr (String _ _) => true
  | PInt z => negb (z =? 0)
  | PFloat (FFinite m _) => negb (m =? 0)
  | PFloat _ => true
  end.

(** [int(x)] for a float [x]: truncation toward zero. *)
Definition int_of_float (f : pyfloat) : result Z :=
  match f with
  | FNaN => Exn ValueError
  | FInf _ => Exn OverflowError
  | FFinite m e => Ok (if 0 <=? e then m * 2 ^ e else Z.quot m (2 ^ (- e)))
  end.

(** [float(n)] for an int [n]: exact below [2^53], otherwise rounded to the
    nearest binary64 (ties to even); [OverflowError] when the rounded value
    does not fit. *)
Definition float_of_int (z : Z) : result pyfloat :=
  let a := Z.abs z in
  if a <? 2 ^ 53 then Ok (FFinite z 0)
  else
    let k := Z.log2 a - 52 in
    let q := a / 2 ^ k in
    let r := a mod 2 ^ k in
    let half := 2 ^ (k - 1) in
    let q' := if (half <? r) || ((r =? half) && Z.odd q) then q + 1 else q in
    if 2 ^ 1024 <=? q' * 2 ^ k then Exn OverflowError
    else Ok (FFinite (Z.sgn z * q') k).

(** *** [str.strip()]

    The characters Python strips, as UTF-8 byte sequences:
    U+0009..U+000D, U+001C..U+0020, U+0085, U+00A0, U+1680, U+2000..U+200A,
    U+2028, U+2029, U+202F, U+205F, U+3000. *)
Definition whitespace : list (list N) :=
  [ [9]; [10]; [11]; [12]; [13]; [28]; [29]; [30]; [31]; [32];
    [194; 133]; [194; 160]; [225; 154; 128];
    [226; 128; 128]; [226; 128; 129]; [226; 128; 130]; [226; 128; 131];
    [226; 128; 132]; [226; 128; 133]; [226; 128; 134]; [226; 128; 135];
    [226; 128; 136]; [226; 128; 137]; [226; 128; 138];
    [226; 128; 168]; [226; 128; 169]; [226; 128; 175];
    [226; 129; 159]; [227; 128; 128] ]%N.

(** [drop_prefix p l] is what follows [p] in [l], when [l] starts with [p]. *)
Fixpoint drop_prefix (p l : list N) : option (list N) :=
  match p, l with
  | [], _ => Some l
  | _ :: _, [] => None
  | x :: p', y :: l' => if (x =? y)%N then drop_prefix p' l' else None
  end.

Fixpoint drop_one (table : list (list N)) (l : list N) : option (list N) :=
  match table with
  | [] => None
  | p :: table' =>
      match drop_prefix p l with
      | Some r => Some r
      | None => drop_one table' l
      end
  end.

Fixpoint drop_all (fuel : nat) (table : list (list N)) (l : list N) : list N :=
  match fuel with
  | O => l
  | S fuel' =>
      match drop_one table l with
      | Some r => drop_all fuel' table r
      | None => l
      end
  end.

Definition lstrip (l : list N) : list N :=
  drop_all (List.length l) whitespace l.

Definition rstrip (l : list N) : list N :=
  rev (drop_all (List.length l) (map (@rev N) whitespace) (rev l)).

Definition strip (s : string) : string :=
  string_of_list_ascii
    (map ascii_of_N (rstrip (lstrip (map N_of_ascii (list_ascii_of_string s))))).

(** [x.strip()] for a text argument; [None] has no such method. *)
Definition text_strip (t : option string) : result string :=
  match t with
  | Some s => Ok (strip s)
  | None => Exn AttributeError
  end.

(** [str(n)] for an int. *)
Definition str_of_int (z : Z) : string :=
  NilZero.string_of_int (Z.to_int z).

(** [str(x)] for a text argument, as an f-string formats it. *)
Definition str_of_text (t : option string) : string :=
  match t with
  | Some s => s
  | None => "None"
  end.

(** Python's parsers of numeric literals, [int(s)] and [float(s)] for a
    [str]: they belong to the interpreter, not to this program.  [None]
    stands for [ValueError].  The empty string is no float literal. *)
Class Builtins : Type := {
  int_literal : string -> option Z;
  float_literal : string -> option pyfloat;
  float_literal_empty : float_literal EmptyString = None
}.

Section Conversions.
Context {B : Builtins}.

(** [float(x)] *)
Definition py_float (v : pyval) : result pyfloat :=
  match v with
  | PNone => Exn TypeError
  | PStr s =>
      match float_literal s with
      | Some f => Ok f
      | None => Exn ValueError
      end
  | PInt z => float_of_int z
  | PFloat f => Ok f
  end.

(** [int(x)] *)
Definition py_int (v : pyval) : result Z :=
  match v with
  | PNone => Exn TypeError
  | PStr s =>
      match int_literal s with
      | Some z => Ok z
      | None => Exn ValueError
      end
  | PInt z => Ok z
  | PFloat f => int_of_float f
  end.

End Conversions.

End Py.
Import Py.


Notation "x <- c ;; k" := (bind c (fun x => k))
  (at level 61, c at next level, right associativity).

(** ** The database *)

(** A row of [buses]. *)
Module Bus.
Record row : Type := {
  id : Z;
  bus_name : string;
  from_city : string;
  to_city : string;
  total_seats : Z
}.
End Bus.

(** A row of [tickets]. *)
Module Ticket.
Record row : Type := {
  id : Z;
  passenger_name : string;
  bus_id : Z;
  travel_date : string;
  seat_number : Z
}.
(** The columns of [UNIQUE(bus_id, travel_date, seat_number)]. *)
Definition key (t : row) : Z * string * Z :=
  (bus_id t, travel_date t, seat_number t).
End Ticket.

(** A row fetched by [view_bookings]. *)
Module Booking.
Record row : Type := {
  id : Z;
  passenger_name : string;
  bus_name : string;
  travel_date : string;
  seat_number : Z
}.
End Booking.

Record store : Type := {
  buses : list Bus.row;
  tickets : list Ticket.row
}.

Definition empty_store : store := {| buses := []; tickets := [] |}.

(** [INTEGER PRIMARY KEY AUTOINCREMENT]: one more than the largest rowid. *)
Definition next_id (ids : list Z) : Z :=
  1 + fold_right Z.max 0 ids.

(** The sqlite3 module binds a Python int only when it fits in 64 bits. *)
Definition fits_int64 (z : Z) : bool :=
  (- 2 ^ 63 <=? z) && (z <? 2 ^ 63).

Definition key_eqb (k1 k2 : Z * string * Z) : bool :=
  let '(b1, d1, s1) := k1 in
  let '(b2, d2, s2) := k2 in
  (b1 =? b2) && String.eqb d1 d2 && (s1 =? s2).

(** [SELECT ... FROM buses WHERE bus_name = ?] followed by [fetchone]; a
    [NULL] parameter matches no row. *)
Definition find_by_name (name : option string) (st : store) : option Bus.row :=
  match name with
  | Some n => find (fun b => String.eqb (Bus.bus_name b) n) (buses st)
  | None => None
  end.

Definition name_taken (n : string) (st : store) : bool :=
  existsb (fun b => String.eqb (Bus.bus_name b) n) (buses st).

Definition seat_taken (k : Z * string * Z) (st : store) : bool :=
  existsb (fun t => key_eqb (Ticket.key t) k) (tickets st).

(** [INSERT INTO buses (bus_name, from_city, to_city, total_seats)]:
    [bus_name] is [UNIQUE] and [total_seats] obeys [CHECK(total_seats > 0)]. *)
Definition insert_bus (n f t : string) (seats : Z) (st : store) : result store :=
  if negb (fits_int64 seats) then Exn OverflowError
  else if negb (0 <? seats) then Exn IntegrityError
  else if name_taken n st then Exn IntegrityError
  else
    Ok {| buses := buses st ++
                   [ {| Bus.id := next_id (map Bus.id (buses st));
                        Bus.bus_name := n;
                        Bus.from_city := f;
                        Bus.to_city := t;
                        Bus.total_seats := seats |} ];
          tickets := tickets st |}.

(** [INSERT INTO tickets (passenger_name, bus_id, travel_date, seat_number)]
    under [UNIQUE(bus_id, travel_date, seat_number)]. *)
Definition insert_ticket (p : string) (bid : Z) (d : string) (seat : Z)
    (st : store) : result store :=
  if negb (fits_int64 seat) then Exn OverflowError
  else if seat_taken (bid, d, seat) st then Exn IntegrityError
  else
    Ok {| buses := buses st;
          tickets := tickets st ++
                     [ {| Ticket.id := next_id (map Ticket.id (tickets st));
                          Ticket.passenger_name := p;
                          Ticket.bus_id := bid;
                          Ticket.travel_date := d;
                          Ticket.seat_number := seat |} ] |}.

(** ** What a call gives back *)

(** One constructor per string the source returns. *)
Inductive reply : Type :=
| AllFieldsRequired
| SeatsNotPositive
| BusAdded (bus_name : string) (seats : Z)
| SeatsNotNumber
| BusNameExists
| SeatNotInteger
| BusNotFound
| SeatOutOfRange (total_seats : Z)
| TicketBooked (bus_name travel_date : string) (seat : Z)
| SeatTaken.

(** The text of each reply, byte for byte. *)
Definition render (r : reply) : string :=
  match r with
  | AllFieldsRequired => "❌ All fields are required."
  | SeatsNotPositive => "❌ Total seats must be a positive integer."
  | BusAdded n seats =>
      "✅ Bus '" ++ n ++ "' added with " ++ str_of_int seats ++ " seats."
  | SeatsNotNumber => "❌ Total seats must be a valid number."
  | BusNameExists => "❌ That bus name already exists."
  | SeatNotInteger => "❌ Seat number must be an integer."
  | BusNotFound => "❌ Selected bus not found."
  | SeatOutOfRange n =>
      "❌ Seat must be between 1 and " ++ str_of_int n ++ "."
  | TicketBooked n d seat =>
      "✅ Ticket booked on '" ++ n ++ "' for " ++ d ++ ", Seat #"
        ++ str_of_int seat ++ "."
  | SeatTaken => "❌ That seat is already booked on that date."
  end%string.

(** The error taxonomy of the specification. *)
Inductive error_kind : Type :=
| ValidationError
| DuplicateNameError
| NotFoundError
| ConflictError.

Definition kind_of (r : reply) : option error_kind :=
  match r with
  | AllFieldsRequired => Some ValidationError
  | SeatsNotPositive => Some ValidationError
  | SeatsNotNumber => Some ValidationError
  | SeatNotInteger => Some ValidationError
  | SeatOutOfRange _ => Some ValidationError
  | BusNameExists => Some DuplicateNameError
  | BusNotFound => Some NotFoundError
  | SeatTaken => Some ConflictError
  | BusAdded _ _ => None
  | TicketBooked _ _ _ => None
  end.

(** A call returns a reply or lets an exception escape. *)
Inductive outcome : Type :=
| Returned (r : reply)
| Raised (e : pyexn).

Definition failure (o : outcome) : option error_kind :=
  match o with
  | Returned r => kind_of r
  | Raised _ => None
  end.

Definition succeeded (o : outcome) : bool :=
  match o with
  | Returned (BusAdded _ _) => true
  | Returned (TicketBooked _ _ _) => true
  | _ => false
  end.

(** ** The operations *)

Section Operations.
Context {B : Builtins}.

(** The body of the [try] block of [add_bus]. *)
Definition add_bus_try (bus_name from_city to_city : option string)
    (total_seats : pyval) (st : store) : result (reply * store) :=
  x <- py_float total_seats ;;
  seats <- int_of_float x ;;
  if seats <=? 0 then Ok (SeatsNotPositive, st)
  else
    n <- text_strip bus_name ;;
    f <- text_strip from_city ;;
    t <- text_strip to_city ;;
    st' <- insert_bus n f t seats st ;;
    Ok (BusAdded (str_of_text bus_name) seats, st').

Definition add_bus (bus_name from_city to_city : option string)
    (total_seats : pyval) (st : store) : outcome * store :=
  if negb (text_truthy bus_name && text_truthy from_city && text_truthy to_city)
  then (Returned AllFieldsRequired, st)
  else
    match add_bus_try bus_name from_city to_city total_seats st with
    | Ok (r, st') => (Returned r, st')
    | Exn ValueError => (Returned SeatsNotNumber, st)
    | Exn TypeError => (Returned SeatsNotNumber, st)
    | Exn IntegrityError => (Returned BusNameExists, st)
    | Exn e => (Raised e, st)
    end.

(** The body of the second [try] block of [book_ticket]. *)
Definition book_ticket_try (passenger_name bus_name travel_date : option string)
    (bus_id seat : Z) (st : store) : result (reply * store) :=
  p <- text_strip passenger_name ;;
  d <- text_strip travel_date ;;
  st' <- insert_ticket p bus_id d seat st ;;
  Ok (TicketBooked (str_of_text bus_name) (str_of_text travel_date) seat, st').

Definition book_ticket (passenger_name bus_name travel_date : option string)
    (seat_number : pyval) (st : store) : outcome * store :=
  if negb (text_truthy passenger_name && text_truthy bus_name
           && text_truthy travel_date && truthy seat_number)
  then (Returned AllFieldsRequired, st)
  else
    match py_int seat_number with
    | Exn ValueError => (Returned SeatNotInteger, st)
    | Exn e => (Raised e, st)
    | Ok seat =>
        match find_by_name bus_name st with
        | None => (Returned BusNotFound, st)
        | Some bus =>
            let bus_id := Bus.id bus in
            let total_seats := Bus.total_seats bus in
            if negb ((1 <=? seat) && (seat <=? total_seats))
            then (Returned (SeatOutOfRange total_seats), st)
            else
              match book_ticket_try passenger_name bus_name travel_date
                      bus_id seat st with
              | Ok (r, st') => (Returned r, st')
              | Exn IntegrityError => (Returned SeatTaken, st)
              | Exn e => (Raised e, st)
              end
        end
    end.

(** One request of the front end that can change the database. *)
Inductive request : Type :=
| AddBus (bus_name from_city to_city : option string) (total_seats : pyval)
| BookTicket (passenger_name bus_name travel_date : option string)
    (seat_number : pyval).

Definition handle (r : request) (st : store) : outcome * store :=
  match r with
  | AddBus n f t c => add_bus n f t c st
  | BookTicket p n d s => book_ticket p n d s st
  end.

(** The database after a sequence of requests. *)
Definition run (rs : list request) (st : store) : store :=
  fold_left (fun s r => snd (handle r s)) rs st.

(** The states the program can be in, starting from freshly created tables. *)
Inductive reachable : store -> Prop :=
| reach_empty : reachable empty_store
| reach_step r st : reachable st -> reachable (snd (handle r st)).

End Operations.

(** ** Listing the bookings *)

(** [FROM tickets t JOIN buses b ON t.bus_id = b.id], with the five selected
    columns. *)
Definition joined (st : store) : list Booking.row :=
  flat_map
    (fun t =>
       map (fun b =>
              {| Booking.id := Ticket.id t;
                 Booking.passenger_name := Ticket.passenger_name t;
                 Booking.bus_name := Bus.bus_name b;
                 Booking.travel_date := Ticket.travel_date t;
                 Booking.seat_number := Ticket.seat_number t |})
           (filter (fun b => Ticket.bus_id t =? Bus.id b) (buses st)))
    (tickets st).

(** [ORDER BY t.travel_date, b.bus_name, t.seat_number]: text compares byte
    by byte, integers by value. *)
Definition booking_leb (r1 r2 : Booking.row) : bool :=
  match String.compare (Booking.travel_date r1) (Booking.travel_date r2) with
  | Lt => true
  | Gt => false
  | Eq =>
      match String.compare (Booking.bus_name r1) (Booking.bus_name r2) with
      | Lt => true
      | Gt => false
      | Eq => Booking.seat_number r1 <=? Booking.seat_number r2
      end
  end.

(** The same order, spelled out: earlier date, or same date and smaller bus
    name, or same date and bus name and a seat number not larger. *)
Definition text_lt (s1 s2 : string) : Prop := String.compare s1 s2 = Lt.

Definition booking_le (r1 r2 : Booking.row) : Prop :=
  text_lt (Booking.travel_date r1) (Booking.travel_date r2) \/
  (Booking.travel_date r1 = Booking.travel_date r2 /\
   (text_lt (Booking.bus_name r1) (Booking.bus_name r2) \/
    (Booking.bus_name r1 = Booking.bus_name r2 /\
     Booking.seat_number r1 <= Booking.seat_number r2))).

Fixpoint place (r : Booking.row) (rows : list Booking.row) : list Booking.row :=
  match rows with
  | [] => [r]
  | r' :: rows' =>
      if booking_leb r r' then r :: rows else r' :: place r rows'
  end.

Definition order_by (rows : list Booking.row) : list Booking.row :=
  fold_right place [] rows.

(** The rows [view_bookings] fetches. *)
Definition list_bookings (st : store) : list Booking.row :=
  order_by (joined st).

Definition newline : string := String (ascii_of_nat 10) EmptyString.

Definition booking_line (r : Booking.row) : string :=
  ("#" ++ str_of_int (Booking.id r) ++ " " ++ Booking.passenger_name r
   ++ " → " ++ Booking.bus_name r ++ " on " ++ Booking.travel_date r
   ++ " (Seat " ++ str_of_int (Booking.seat_number r) ++ ")")%string.

Definition view_bookings (st : store) : string :=
  match list_bookings st with
  | [] => "No bookings yet."%string
  | rows => String.concat newline (map booking_line rows)
  end.

Definition bus_line (b : Bus.row) : string :=
  (Bus.bus_name b ++ ": " ++ Bus.from_city b ++ " → " ++ Bus.to_city b
   ++ " (" ++ str_of_int (Bus.total_seats b) ++ " seats)")%string.

Definition view_buses (st : store) : string :=
  match buses st with
  | [] => "No buses available."%string
  | rows => String.concat newline (map bus_line rows)
  end.

(** ** What the database always satisfies *)

(** No two tickets on the same bus, date and seat. *)
Definition no_double_booking (st : store) : Prop :=
  NoDup (map Ticket.key (tickets st)).

Record consistent (st : store) : Prop := {
  names_unique : NoDup (map Bus.bus_name (buses st));
  bus_ids_unique : NoDup (map Bus.id (buses st));
  seats_bounded :
    Forall (fun b => 0 < Bus.total_seats b < 2 ^ 63) (buses st);
  keys_unique : no_double_booking st;
  tickets_refer :
    Forall (fun t => exists b, In b (buses st)
                               /\ Bus.id b = Ticket.bus_id t
                               /\ 1 <= Ticket.seat_number t <= Bus.total_seats b)
           (tickets st)
}.

(** ** Literals for concrete runs

    Signed decimal literals such as ["40"] and ["-3"], surrounded by optional
    whitespace: a fragment of what [int] and [float] accept, enough to run
    the operations on concrete text. *)
Definition decimal_literal (s : string) : option Z :=
  option_map Z.of_int (NilZero.int_of_string (strip s)).

Definition decimal_float_literal (s : string) : option pyfloat :=
  match decimal_literal s with
  | None => None
  | Some z =>
      match float_of_int z with
      | Ok f => Some f
      | Exn _ => Some (FInf (z <? 0))
      end
  end.

Definition decimal_builtins : Builtins := {|
  int_literal := decimal_literal;
  float_literal := decimal_float_literal;
  float_literal_empty := eq_refl
|}.

(** *** A small database for concrete runs *)

Definition add_express1 : request :=
  AddBus (Some "Express1"%string) (Some "CityA"%string) (Some "CityB"%string)
    (PInt 40).

Definition express1 : Bus.row :=
  {| Bus.id := 1; Bus.bus_name := "Express1"; Bus.from_city := "CityA";
     Bus.to_city := "CityB"; Bus.total_seats := 40 |}.

(** The database after [add_bus("Express1", "CityA", "CityB", 40)]. *)
Definition one_bus : store :=
  @run decimal_builtins [add_express1] empty_store.

(** 3.5 and 40.5 as binary64 values. *)
Definition three_and_a_half : pyfloat := FFinite 7 (-1).
Definition forty_and_a_half : pyfloat := FFinite 81 (-1).

Definition book_alice : request :=
  BookTicket (Some "Alice"%string) (Some "Express1"%string)
    (Some "2024-05-01"%string) (PInt 5).

(** The database after Alice has booked seat 5 of Express1. *)
Definition one_booking : store :=
  @run decimal_builtins [add_express1; book_alice] empty_store.

(** ** The bus names offered for booking *)

(** [ORDER BY bus_name]: names compare byte by byte. *)
Fixpoint place_name (n : string) (names : list string) : list string :=
  match names with
  | [] => [n]
  | n' :: names' =>
      if String.leb n n' then n :: names else n' :: place_name n names'
  end.

Definition order_names (names : list string) : list string :=
  fold_right place_name [] names.

(** [SELECT bus_name FROM buses ORDER BY bus_name], the first column of each
    row. *)
Definition get_bus_choices (st : store) : list string :=
  order_names (map Bus.bus_name (buses st)).

Definition text_le (s1 s2 : string) : Prop := text_lt s1 s2 \/ s1 = s2.

(** ** Vocabulary for the properties *)

(** The row of the join for a ticket and a bus. *)
Definition booking_of (t : Ticket.row) (b : Bus.row) : Booking.row :=
  {| Booking.id := Ticket.id t;
     Booking.passenger_name := Ticket.passenger_name t;
     Booking.bus_name := Bus.bus_name b;
     Booking.travel_date := Ticket.travel_date t;
     Booking.seat_number := Ticket.seat_number t |}.

(** The tickets sold for one bus on one date. *)
Definition booked_on (bid : Z) (d : string) (st : store) : list Ticket.row :=
  filter (fun t => (Ticket.bus_id t =? bid) && String.eqb (Ticket.travel_date t) d)
         (tickets st).

(** The rowids [1, 2, ..., n]. *)
Definition ids_up_to (n : nat) : list Z := map Z.of_nat (seq 1 n).

(** A text that [strip] leaves as it is. *)
Definition trimmed (s : string) : Prop := strip s = s.

(** The three columns [view_bookings] orders by. *)
Definition order_key (r : Booking.row) : string * string * Z :=
  (Booking.travel_date r, Booking.bus_name r, Booking.seat_number r).

(** Both tables carry the rowids [1, 2, ...] in order. *)
Definition counted (st : store) : Prop :=
  map Bus.id (buses st) = ids_up_to (List.length (buses st)) /\
  map Ticket.id (tickets st) = ids_up_to (List.length (tickets st)).

(** Every stored text is trimmed. *)
Definition texts_trimmed (st : store) : Prop :=
  Forall (fun b => trimmed (Bus.bus_name b) /\ trimmed (Bus.from_city b)
                   /\ trimmed (Bus.to_city b)) (buses st) /\
  Forall (fun t => trimmed (Ticket.passenger_name t)
                   /\ trimmed (Ticket.travel_date t)) (tickets st).

(** The database after [add_bus("   ", "CityA", "CityB", 40)]. *)
Definition blank_bus : store :=
  @run decimal_builtins
    [AddBus (Some "   "%string) (Some "CityA"%string) (Some "CityB"%string)
       (PInt 40)] empty_store.



(** * Properties *)

(** ** Lists and keys *)

Lemma NoDup_snoc {A : Type} (l : list A) (x : A) :
  NoDup l -> ~ In x l -> NoDup (l ++ [x]).
Proof.
  intros Hl Hx.
  apply NoDup_app; [assumption | repeat constructor; intros [] | ].
  intros a Ha [<- | []]. contradiction.
Qed.

Lemma fold_max_bound (ids : list Z) (x : Z) :
  In x ids -> x <= fold_right Z.max 0 ids.
Proof.
  induction ids as [| y ids IH]; simpl; intros Hin; [contradiction |].
  destruct Hin as [-> | Hin]; [lia |].
  specialize (IH Hin). lia.
Qed.

Lemma next_id_fresh (ids : list Z) : ~ In (next_id ids) ids.
Proof.
  intros Hin. apply fold_max_bound in Hin. unfold next_id in Hin. lia.
Qed.

Lemma key_eqb_eq (k1 k2 : Z * string * Z) : key_eqb k1 k2 = true <-> k1 = k2.
Proof.
  destruct k1 as [[b1 d1] s1], k2 as [[b2 d2] s2]. unfold key_eqb.
  rewrite !andb_true_iff, !Z.eqb_eq, String.eqb_eq.
  split; [intros [[-> ->] ->]; reflexivity | intros [= -> -> ->]; auto].
Qed.

Lemma name_taken_false (n : string) (st : store) :
  name_taken n st = false <-> ~ In n (map Bus.bus_name (buses st)).
Proof.
  unfold name_taken. split.
  - intros Hf Hin. apply in_map_iff in Hin as (b & <- & Hb).
    assert (Ht : existsb (fun b' => String.eqb (Bus.bus_name b') (Bus.bus_name b))
                   (buses st) = true).
    { apply existsb_exists. exists b. split; [assumption | apply String.eqb_refl]. }
    congruence.
  - intros Hn. destruct (existsb _ _) eqn:E; [| reflexivity].
    apply existsb_exists in E as (b & Hb & Heq). apply String.eqb_eq in Heq.
    exfalso. apply Hn. apply in_map_iff. exists b. auto.
Qed.

Lemma seat_taken_false (k : Z * string * Z) (st : store) :
  seat_taken k st = false <-> ~ In k (map Ticket.key (tickets st)).
Proof.
  unfold seat_taken. split.
  - intros Hf Hin. apply in_map_iff in Hin as (t & <- & Ht).
    assert (Hx : existsb (fun t' => key_eqb (Ticket.key t') (Ticket.key t))
                   (tickets st) = true).
    { apply existsb_exists. exists t. split; [assumption | now apply key_eqb_eq]. }
    congruence.
  - intros Hn. destruct (existsb _ _) eqn:E; [| reflexivity].
    apply existsb_exists in E as (t & Ht & Heq). apply key_eqb_eq in Heq.
    exfalso. apply Hn. apply in_map_iff. exists t. auto.
Qed.

Lemma fits_int64_iff (z : Z) : fits_int64 z = true <-> - 2 ^ 63 <= z < 2 ^ 63.
Proof. unfold fits_int64. rewrite andb_true_iff, Z.leb_le, Z.ltb_lt. tauto. Qed.

(** In a database with unique names, the lookup finds each bus by its name. *)
Lemma find_by_name_In (b : Bus.row) (st : store) :
  NoDup (map Bus.bus_name (buses st)) -> In b (buses st) ->
  find_by_name (Some (Bus.bus_name b)) st = Some b.
Proof.
  unfold find_by_name. induction (buses st) as [| b' l IH]; simpl.
  - intros _ [].
  - intros Hnd Hin. apply NoDup_cons_iff in Hnd as [Hnotin Hnd].
    destruct (String.eqb_spec (Bus.bus_name b') (Bus.bus_name b)) as [Heq | Hne].
    + destruct Hin as [-> | Hin]; [reflexivity |].
      exfalso. apply Hnotin. rewrite Heq. now apply in_map.
    + destruct Hin as [-> | Hin]; [congruence | now apply IH].
Qed.

Lemma find_by_name_Some (name : option string) (b : Bus.row) (st : store) :
  find_by_name name st = Some b -> In b (buses st) /\ name = Some (Bus.bus_name b).
Proof.
  destruct name as [n |]; simpl; [| discriminate].
  intros H. apply find_some in H as [Hin Heq].
  apply String.eqb_eq in Heq. now subst.
Qed.

(** ** The two [INSERT] statements *)

Lemma insert_bus_Ok (n f t : string) (seats : Z) (st st' : store) :
  insert_bus n f t seats st = Ok st' <->
  0 < seats < 2 ^ 63 /\ ~ In n (map Bus.bus_name (buses st)) /\
  st' = {| buses := buses st ++
                    [ {| Bus.id := next_id (map Bus.id (buses st));
                         Bus.bus_name := n; Bus.from_city := f;
                         Bus.to_city := t; Bus.total_seats := seats |} ];
           tickets := tickets st |}.
Proof.
  unfold insert_bus. rewrite <- name_taken_false.
  destruct (fits_int64 seats) eqn:Hfit; simpl.
  - apply fits_int64_iff in Hfit.
    destruct (Z.ltb_spec 0 seats); simpl.
    + destruct (name_taken n st); split.
      * discriminate.
      * intros (_ & Hc & _). discriminate.
      * intros [= <-]. repeat split; auto; lia.
      * intros (_ & _ & ->). reflexivity.
    + split; [discriminate | intros ([? ?] & _); lia].
  - split; [discriminate |].
    intros (Hr & _). assert (fits_int64 seats = true) by (apply fits_int64_iff; lia).
    congruence.
Qed.

Lemma insert_ticket_Ok (p : string) (bid : Z) (d : string) (seat : Z)
    (st st' : store) :
  insert_ticket p bid d seat st = Ok st' <->
  - 2 ^ 63 <= seat < 2 ^ 63 /\
  ~ In (bid, d, seat) (map Ticket.key (tickets st)) /\
  st' = {| buses := buses st;
           tickets := tickets st ++
                      [ {| Ticket.id := next_id (map Ticket.id (tickets st));
                           Ticket.passenger_name := p; Ticket.bus_id := bid;
                           Ticket.travel_date := d;
                           Ticket.seat_number := seat |} ] |}.
Proof.
  unfold insert_ticket. rewrite <- seat_taken_false, <- fits_int64_iff.
  destruct (fits_int64 seat); simpl.
  - destruct (seat_taken (bid, d, seat) st); split.
    + discriminate.
    + intros (_ & Hc & _). discriminate.
    + intros [= <-]. auto.
    + intros (_ & _ & ->). reflexivity.
  - split; [discriminate | intros (Hc & _); discriminate].
Qed.

Lemma insert_bus_consistent (n f t : string) (seats : Z) (st st' : store) :
  consistent st -> insert_bus n f t seats st = Ok st' -> consistent st'.
Proof.
  intros [Hn Hi Hs Hk Hr] H. apply insert_bus_Ok in H as (Hseats & Hfresh & ->).
  constructor; unfold no_double_booking in *; simpl.
  - rewrite map_app. simpl. now apply NoDup_snoc.
  - rewrite map_app. simpl. apply NoDup_snoc; [assumption | apply next_id_fresh].
  - apply Forall_app. split; [assumption | repeat constructor; simpl; lia].
  - assumption.
  - eapply Forall_impl; [| exact Hr].
    intros tk (b & Hb & Hrest). exists b. split; [| assumption].
    apply in_or_app. now left.
Qed.

Lemma insert_ticket_consistent (p : string) (b : Bus.row) (d : string)
    (seat : Z) (st st' : store) :
  consistent st -> In b (buses st) -> 1 <= seat <= Bus.total_seats b ->
  insert_ticket p (Bus.id b) d seat st = Ok st' -> consistent st'.
Proof.
  intros [Hn Hi Hs Hk Hr] Hb Hseat H.
  apply insert_ticket_Ok in H as (_ & Hfresh & ->).
  constructor; unfold no_double_booking in *; simpl; try assumption.
  - rewrite map_app. simpl. now apply NoDup_snoc.
  - apply Forall_app. split; [assumption |].
    repeat constructor. exists b. simpl. auto.
Qed.

(** ** The operations, case by case *)

Section OperationFacts.
Context {B : Builtins}.

Lemma text_truthy_Some (t : option string) :
  text_truthy t = true <-> exists s, t = Some s /\ s <> EmptyString.
Proof.
  destruct t as [[| c s] |]; simpl; split; try discriminate.
  - intros (s & [= <-] & Hs). congruence.
  - intros _. eexists. split; [reflexivity | discriminate].
  - reflexivity.
  - intros (s & Hs & _). discriminate.
Qed.

(** [add_bus] on three non-empty texts, once [int(float(total_seats))] is
    known. *)
Lemma add_bus_converted (n f t : string) (c : pyval) (seats : Z) (st : store) :
  n <> EmptyString -> f <> EmptyString -> t <> EmptyString ->
  (x <- py_float c ;; int_of_float x) = Ok seats ->
  add_bus (Some n) (Some f) (Some t) c st =
  if seats <=? 0 then (Returned SeatsNotPositive, st)
  else
    match insert_bus (strip n) (strip f) (strip t) seats st with
    | Ok st' => (Returned (BusAdded n seats), st')
    | Exn IntegrityError => (Returned BusNameExists, st)
    | Exn ValueError => (Returned SeatsNotNumber, st)
    | Exn TypeError => (Returned SeatsNotNumber, st)
    | Exn e => (Raised e, st)
    end.
Proof.
  intros Hn Hf Ht Hc. unfold add_bus, add_bus_try.
  destruct n; [congruence |]. destruct f; [congruence |].
  destruct t; [congruence |]. cbn [text_truthy andb negb].
  destruct (py_float c) as [x | e]; simpl in Hc |- *; [| discriminate].
  rewrite Hc. simpl. destruct (seats <=? 0); [reflexivity |].
  destruct (insert_bus _ _ _ seats st) as [st' | []]; reflexivity.
Qed.

(** Either [add_bus] reports a success and has run the [INSERT], or the
    database is the one it started from. *)
Lemma add_bus_inv (n f t : option string) (c : pyval) (st : store) :
  (succeeded (fst (add_bus n f t c st)) = false /\
   snd (add_bus n f t c st) = st) \/
  (exists sn sf sd seats st',
      n = Some sn /\ f = Some sf /\ t = Some sd /\
      (x <- py_float c ;; int_of_float x) = Ok seats /\
      insert_bus (strip sn) (strip sf) (strip sd) seats st = Ok st' /\
      add_bus n f t c st = (Returned (BusAdded sn seats), st')).
Proof.
  destruct (text_truthy n && text_truthy f && text_truthy t) eqn:Htr.
  - apply andb_true_iff in Htr as [Htr Ht]. apply andb_true_iff in Htr as [Hn Hf].
    apply text_truthy_Some in Hn as (sn & -> & Hn).
    apply text_truthy_Some in Hf as (sf & -> & Hf).
    apply text_truthy_Some in Ht as (sd & -> & Ht).
    destruct (x <- py_float c ;; int_of_float x) as [seats | e] eqn:Hc.
    + rewrite (add_bus_converted _ _ _ _ _ _ Hn Hf Ht Hc).
      destruct (seats <=? 0); [left; auto |].
      destruct (insert_bus _ _ _ seats st) as [st' | e] eqn:Hins.
      * right. exists sn, sf, sd, seats, st'. auto 10.
      * left. destruct e; auto.
    + left. unfold add_bus, add_bus_try.
      destruct sn; [congruence |]. destruct sf; [congruence |].
      destruct sd; [congruence |]. cbn [text_truthy andb negb].
      destruct (py_float c) as [x | e']; simpl in Hc |- *.
      * rewrite Hc. simpl. destruct e; auto.
      * injection Hc as ->. destruct e; auto.
  - left. unfold add_bus. rewrite Htr. auto.
Qed.

(** [book_ticket] on present fields, once [int(seat_number)] is known and the
    bus is found. *)
Lemma book_ticket_found (p n d : string) (sn : pyval) (seat : Z)
    (bus : Bus.row) (st : store) :
  p <> EmptyString -> n <> EmptyString -> d <> EmptyString ->
  truthy sn = true -> py_int sn = Ok seat ->
  find_by_name (Some n) st = Some bus ->
  book_ticket (Some p) (Some n) (Some d) sn st =
  if negb ((1 <=? seat) && (seat <=? Bus.total_seats bus))
  then (Returned (SeatOutOfRange (Bus.total_seats bus)), st)
  else
    match insert_ticket (strip p) (Bus.id bus) (strip d) seat st with
    | Ok st' => (Returned (TicketBooked n d seat), st')
    | Exn IntegrityError => (Returned SeatTaken, st)
    | Exn e => (Raised e, st)
    end.
Proof.
  intros Hp Hn Hd Hsn Hint Hfind. unfold book_ticket, book_ticket_try.
  destruct p; [congruence |]. destruct n; [congruence |].
  destruct d; [congruence |]. cbn [text_truthy andb negb].
  rewrite Hsn, Hint, Hfind. cbn [negb].
  destruct (negb _); [reflexivity |]. simpl.
  destruct (insert_ticket _ _ _ seat st) as [st' | []]; reflexivity.
Qed.

(** Either [book_ticket] reports a success and has run the [INSERT] for a bus
    it found and a seat in range, or the database is unchanged. *)
Lemma book_ticket_inv (p n d : option string) (sn : pyval) (st : store) :
  (succeeded (fst (book_ticket p n d sn st)) = false /\
   snd (book_ticket p n d sn st) = st) \/
  (exists sp sb sd seat bus st',
      p = Some sp /\ n = Some sb /\ d = Some sd /\
      py_int sn = Ok seat /\ find_by_name n st = Some bus /\
      1 <= seat <= Bus.total_seats bus /\
      insert_ticket (strip sp) (Bus.id bus) (strip sd) seat st = Ok st' /\
      book_ticket p n d sn st = (Returned (TicketBooked sb sd seat), st')).
Proof.
  destruct (text_truthy p && text_truthy n && text_truthy d && truthy sn) eqn:Htr.
  - apply andb_true_iff in Htr as [Htr Hsn]. apply andb_true_iff in Htr as [Htr Hd].
    apply andb_true_iff in Htr as [Hp Hn].
    apply text_truthy_Some in Hp as (sp & -> & Hp).
    apply text_truthy_Some in Hn as (sb & -> & Hn).
    apply text_truthy_Some in Hd as (sd & -> & Hd).
    destruct (py_int sn) as [seat | e] eqn:Hint.
    + destruct (find_by_name (Some sb) st) as [bus |] eqn:Hfind.
      * rewrite (book_ticket_found _ _ _ _ _ _ _ Hp Hn Hd Hsn Hint Hfind).
        destruct ((1 <=? seat) && (seat <=? Bus.total_seats bus)) eqn:Hrange;
          cbn [negb]; [| left; auto].
        apply andb_true_iff in Hrange as [H1 H2].
        apply Z.leb_le in H1. apply Z.leb_le in H2.
        destruct (insert_ticket _ _ _ seat st) as [st' | e] eqn:Hins.
        -- right. exists sp, sb, sd, seat, bus, st'. auto 10.
        -- left. destruct e; auto.
      * left. unfold book_ticket.
        destruct sp; [congruence |]. destruct sb; [congruence |].
        destruct sd; [congruence |]. cbn [text_truthy andb negb].
        rewrite Hsn, Hint, Hfind. auto.
    + left. unfold book_ticket.
      destruct sp; [congruence |]. destruct sb; [congruence |].
      destruct sd; [congruence |]. cbn [text_truthy andb negb].
      rewrite Hsn, Hint. destruct e; auto.
  - left. unfold book_ticket. rewrite Htr. auto.
Qed.

(** Every request keeps the database consistent. *)
Lemma handle_consistent (r : request) (st : store) :
  consistent st -> consistent (snd (handle r st)).
Proof.
  intros Hc. destruct r as [n f t c | p n d sn]; simpl.
  - destruct (add_bus_inv n f t c st) as [[_ ->] | H]; [assumption |].
    destruct H as (sn & sf & sd & seats & st' & _ & _ & _ & _ & Hins & ->).
    simpl. eapply insert_bus_consistent; eassumption.
  - destruct (book_ticket_inv p n d sn st) as [[_ ->] | H]; [assumption |].
    destruct H as (sp & sb & sd & seat & bus & st' & _ & _ & _ & _ & Hf & Hr & Hins & ->).
    simpl. apply find_by_name_Some in Hf as [Hin _].
    eapply insert_ticket_consistent; eassumption.
Qed.

Lemma empty_consistent : consistent empty_store.
Proof. constructor; unfold no_double_booking; simpl; constructor. Qed.

Lemma reachable_consistent (st : store) : reachable st -> consistent st.
Proof.
  induction 1 as [| r st _ IH]; [apply empty_consistent | now apply handle_consistent].
Qed.

Lemma run_snoc (rs : list request) (r : request) (st : store) :
  run (rs ++ [r]) st = snd (handle r (run rs st)).
Proof. unfold run. now rewrite fold_left_app. Qed.

Lemma reachable_run (rs : list request) : reachable (run rs empty_store).
Proof.
  induction rs as [| r rs IH] using rev_ind; [apply reach_empty |].
  rewrite run_snoc. now apply reach_step.
Qed.

Lemma reachable_is_run (st : store) :
  reachable st -> exists rs, st = run rs empty_store.
Proof.
  induction 1 as [| r st _ [rs ->]]; [now exists [] |].
  exists (rs ++ [r]). now rewrite run_snoc.
Qed.

End OperationFacts.

(** ** The order of the listing *)

Lemma ascii_compare_refl (a : ascii) : Ascii.compare a a = Eq.
Proof. unfold Ascii.compare. apply N.compare_refl. Qed.

Lemma ascii_compare_lt_trans (a b c : ascii) :
  Ascii.compare a b = Lt -> Ascii.compare b c = Lt -> Ascii.compare a c = Lt.
Proof.
  unfold Ascii.compare. rewrite !N.compare_lt_iff. apply N.lt_trans.
Qed.

Lemma string_compare_refl (s : string) : String.compare s s = Eq.
Proof.
  induction s as [| a s IH]; simpl; [reflexivity |].
  now rewrite ascii_compare_refl.
Qed.

Lemma string_compare_eq (s1 s2 : string) : String.compare s1 s2 = Eq <-> s1 = s2.
Proof.
  split; [apply String.compare_eq_iff | intros ->; apply string_compare_refl].
Qed.

Lemma text_lt_trans (s1 s2 s3 : string) :
  text_lt s1 s2 -> text_lt s2 s3 -> text_lt s1 s3.
Proof.
  unfold text_lt. revert s2 s3.
  induction s1 as [| a s1 IH]; intros [| b s2] [| c s3]; simpl;
    try discriminate; try reflexivity.
  destruct (Ascii.compare a b) eqn:Hab; try discriminate;
    destruct (Ascii.compare b c) eqn:Hbc; try discriminate; intros H12 H23.
  - apply Ascii.compare_eq_iff in Hab, Hbc. subst.
    rewrite ascii_compare_refl. eapply IH; eassumption.
  - apply Ascii.compare_eq_iff in Hab. subst. now rewrite Hbc.
  - apply Ascii.compare_eq_iff in Hbc. subst. now rewrite Hab.
  - now rewrite (ascii_compare_lt_trans _ _ _ Hab Hbc).
Qed.

Lemma text_lt_irrefl (s : string) : ~ text_lt s s.
Proof. unfold text_lt. rewrite string_compare_refl. discriminate. Qed.

Lemma string_compare_gt (s1 s2 : string) :
  String.compare s1 s2 = Gt <-> text_lt s2 s1.
Proof.
  unfold text_lt. rewrite (String.compare_antisym s2 s1).
  destruct (String.compare s1 s2); simpl; split; congruence.
Qed.

(** [booking_leb] decides [booking_le]. *)
Lemma booking_leb_le (r1 r2 : Booking.row) :
  booking_leb r1 r2 = true <-> booking_le r1 r2.
Proof.
  unfold booking_leb, booking_le.
  destruct (String.compare (Booking.travel_date r1) (Booking.travel_date r2))
    eqn:Hd.
  - apply string_compare_eq in Hd. rewrite Hd.
    destruct (String.compare (Booking.bus_name r1) (Booking.bus_name r2)) eqn:Hn.
    + apply string_compare_eq in Hn. rewrite Hn, Z.leb_le. split.
      * intros H. right. split; [reflexivity |]. right. auto.
      * intros [H | [_ [H | [_ H]]]]; [| | assumption];
          exfalso; eapply text_lt_irrefl; eassumption.
    + split; [intros _; right; split; [reflexivity | now left] | reflexivity].
    + split; [discriminate |].
      apply string_compare_gt in Hn.
      intros [H | [_ [H | [H _]]]].
      * exfalso; eapply text_lt_irrefl; eassumption.
      * exfalso. eapply text_lt_irrefl. eapply text_lt_trans; eassumption.
      * rewrite H in Hn. exfalso; eapply text_lt_irrefl; eassumption.
  - split; [intros _; now left | reflexivity].
  - split; [discriminate |].
    apply string_compare_gt in Hd.
    intros [H | [H _]].
    + exfalso. eapply text_lt_irrefl. eapply text_lt_trans; eassumption.
    + rewrite H in Hd. exfalso; eapply text_lt_irrefl; eassumption.
Qed.

Lemma booking_leb_total (r1 r2 : Booking.row) :
  booking_leb r1 r2 = false -> booking_leb r2 r1 = true.
Proof.
  unfold booking_leb.
  rewrite (String.compare_antisym (Booking.travel_date r1) (Booking.travel_date r2)).
  rewrite (String.compare_antisym (Booking.bus_name r1) (Booking.bus_name r2)).
  destruct (String.compare (Booking.travel_date r2) (Booking.travel_date r1));
    simpl; try congruence.
  destruct (String.compare (Booking.bus_name r2) (Booking.bus_name r1));
    simpl; try congruence.
  rewrite Z.leb_gt, Z.leb_le. lia.
Qed.

Lemma booking_le_trans (r1 r2 r3 : Booking.row) :
  booking_le r1 r2 -> booking_le r2 r3 -> booking_le r1 r3.
Proof.
  unfold booking_le.
  intros [Hd12 | [Hd12 Hn12]] [Hd23 | [Hd23 Hn23]].
  - left. eapply text_lt_trans; eassumption.
  - left. now rewrite <- Hd23.
  - left. now rewrite Hd12.
  - right. split; [congruence |].
    destruct Hn12 as [Hn12 | [Hn12 Hs12]], Hn23 as [Hn23 | [Hn23 Hs23]].
    + left. eapply text_lt_trans; eassumption.
    + left. now rewrite <- Hn23.
    + left. now rewrite Hn12.
    + right. split; [congruence | lia].
Qed.

Lemma place_perm (r : Booking.row) (rows : list Booking.row) :
  Permutation (r :: rows) (place r rows).
Proof.
  induction rows as [| r' rows IH]; simpl; [reflexivity |].
  destruct (booking_leb r r'); [reflexivity |].
  rewrite perm_swap. now apply perm_skip.
Qed.

Lemma place_sorted (r : Booking.row) (rows : list Booking.row) :
  StronglySorted booking_le rows -> StronglySorted booking_le (place r rows).
Proof.
  induction rows as [| r' rows IH]; simpl; intros Hs.
  - repeat constructor.
  - apply StronglySorted_inv in Hs as [Hs Hall].
    destruct (booking_leb r r') eqn:Hle.
    + apply booking_leb_le in Hle. constructor.
      * now constructor.
      * constructor; [assumption |].
        eapply Forall_impl; [| exact Hall].
        intros x Hx. eapply booking_le_trans; eassumption.
    + apply booking_leb_total, booking_leb_le in Hle. constructor.
      * now apply IH.
      * eapply Permutation_Forall; [apply place_perm |].
        now constructor.
Qed.

Lemma order_by_perm (rows : list Booking.row) : Permutation rows (order_by rows).
Proof.
  induction rows as [| r rows IH]; simpl; [reflexivity |].
  rewrite <- place_perm. now apply perm_skip.
Qed.

Lemma order_by_sorted (rows : list Booking.row) :
  StronglySorted booking_le (order_by rows).
Proof.
  induction rows as [| r rows IH]; simpl; [constructor | now apply place_sorted].
Qed.

(** ** The join *)

Lemma filter_none_by_id (x : Z) (l : list Bus.row) :
  ~ In x (map Bus.id l) -> filter (fun b' => x =? Bus.id b') l = [].
Proof.
  induction l as [| b' l IH]; simpl; intros Hn; [reflexivity |].
  destruct (Z.eqb_spec x (Bus.id b')) as [-> | _]; [exfalso; auto |].
  apply IH. auto.
Qed.

Lemma filter_one_by_id (b : Bus.row) (l : list Bus.row) :
  NoDup (map Bus.id l) -> In b l ->
  filter (fun b' => Bus.id b =? Bus.id b') l = [b].
Proof.
  induction l as [| b' l IH]; simpl; intros Hnd Hin; [contradiction |].
  apply NoDup_cons_iff in Hnd as [Hnotin Hnd].
  destruct Hin as [-> | Hin].
  - rewrite Z.eqb_refl. f_equal. now apply filter_none_by_id.
  - destruct (Z.eqb_spec (Bus.id b) (Bus.id b')) as [Heq | _]; [| now apply IH].
    exfalso. apply Hnotin. rewrite <- Heq. now apply in_map.
Qed.

(** In a consistent database the join has exactly one row per ticket. *)
Lemma joined_one_per_ticket (st : store) :
  consistent st -> map Booking.id (joined st) = map Ticket.id (tickets st).
Proof.
  intros [_ Hids _ _ Hrefer]. unfold joined.
  induction Hrefer as [| t l (b & Hb & Hid & _) _ IH]; simpl; [reflexivity |].
  rewrite map_app, IH, <- Hid, (filter_one_by_id b _ Hids Hb). reflexivity.
Qed.

(** * The claims of the specification *)

Section Claims.
Context {B : Builtins}.

Lemma consistent_capacity (b : Bus.row) (st : store) :
  consistent st -> In b (buses st) -> 0 < Bus.total_seats b < 2 ^ 63.
Proof.
  intros Hc Hb. apply (proj1 (Forall_forall _ _) (seats_bounded st Hc) b Hb).
Qed.

(** A free seat in range is booked by the first call and refused to the
    next call for the same bus, date and seat. *)
Lemma book_then_conflict (p1 p2 n d : string) (sn : pyval) (seat : Z)
    (bus : Bus.row) (st : store) :
  consistent st ->
  p1 <> EmptyString -> p2 <> EmptyString -> n <> EmptyString ->
  d <> EmptyString -> truthy sn = true -> py_int sn = Ok seat ->
  find_by_name (Some n) st = Some bus ->
  1 <= seat <= Bus.total_seats bus ->
  seat_taken (Bus.id bus, strip d, seat) st = false ->
  exists st1,
    book_ticket (Some p1) (Some n) (Some d) sn st
    = (Returned (TicketBooked n d seat), st1) /\
    book_ticket (Some p2) (Some n) (Some d) sn st1 = (Returned SeatTaken, st1).
Proof.
  intros Hc Hp1 Hp2 Hn Hd Hsn Hint Hfind Hrange Hfree.
  pose proof (find_by_name_Some _ _ _ Hfind) as [Hin _].
  pose proof (consistent_capacity _ _ Hc Hin) as Hcap.
  assert (Hleb : negb ((1 <=? seat) && (seat <=? Bus.total_seats bus)) = false).
  { apply negb_false_iff, andb_true_iff. rewrite !Z.leb_le. lia. }
  assert (Hfit : fits_int64 seat = true) by (apply fits_int64_iff; lia).
  eexists. split.
  - rewrite (book_ticket_found _ _ _ _ _ _ _ Hp1 Hn Hd Hsn Hint Hfind), Hleb.
    unfold insert_ticket. rewrite Hfit, Hfree. reflexivity.
  - assert (Hfind' : find_by_name (Some n)
              {| buses := buses st;
                 tickets := tickets st ++
                   [ {| Ticket.id := next_id (map Ticket.id (tickets st));
                        Ticket.passenger_name := strip p1;
                        Ticket.bus_id := Bus.id bus;
                        Ticket.travel_date := strip d;
                        Ticket.seat_number := seat |} ] |} = Some bus)
      by exact Hfind.
    rewrite (book_ticket_found _ _ _ _ _ _ _ Hp2 Hn Hd Hsn Hint Hfind'), Hleb.
    unfold insert_ticket, seat_taken. cbn [tickets negb].
    rewrite Hfit, existsb_app. cbn [existsb Ticket.key Ticket.bus_id
      Ticket.travel_date Ticket.seat_number negb].
    rewrite (proj2 (key_eqb_eq _ _) eq_refl), orb_true_r. reflexivity.
Qed.

(** C1. Two [book_ticket] calls naming the same bus, travel date and seat
    number, on an existing bus with the seat in range and free: whichever of
    the two comes first is booked, and the other one is refused with the
    seat-already-booked reply, a [ConflictError]. *)
Theorem same_seat_first_wins (p1 p2 n d : string) (sn : pyval) (seat : Z)
    (bus : Bus.row) (st : store) :
  reachable st ->
  p1 <> EmptyString -> p2 <> EmptyString -> n <> EmptyString ->
  d <> EmptyString -> truthy sn = true -> py_int sn = Ok seat ->
  find_by_name (Some n) st = Some bus ->
  1 <= seat <= Bus.total_seats bus ->
  seat_taken (Bus.id bus, strip d, seat) st = false ->
  (exists st1,
      book_ticket (Some p1) (Some n) (Some d) sn st
      = (Returned (TicketBooked n d seat), st1) /\
      book_ticket (Some p2) (Some n) (Some d) sn st1
      = (Returned SeatTaken, st1)) /\
  (exists st2,
      book_ticket (Some p2) (Some n) (Some d) sn st
      = (Returned (TicketBooked n d seat), st2) /\
      book_ticket (Some p1) (Some n) (Some d) sn st2
      = (Returned SeatTaken, st2)) /\
  failure (Returned SeatTaken) = Some ConflictError.
Proof.
  intros Hr Hp1 Hp2 Hn Hd Hsn Hint Hfind Hrange Hfree.
  apply reachable_consistent in Hr.
  split; [| split; [| reflexivity]];
    eapply book_then_conflict; eassumption.
Qed.

(** C2. From freshly created tables, after any sequence of [add_bus] and
    [book_ticket] calls no two tickets share the triple (bus_id, travel_date,
    seat_number); and each single call, whatever its arguments, keeps that
    uniqueness when it holds before the call. *)
Theorem seat_triples_stay_unique :
  (forall rs : list request, no_double_booking (run rs empty_store)) /\
  (forall (r : request) (st : store),
      no_double_booking st -> no_double_booking (snd (handle r st))).
Proof.
  split.
  - intros rs. apply keys_unique, reachable_consistent, reachable_run.
  - intros r st Hk. destruct r as [n f t c | p n d sn]; simpl.
    + destruct (add_bus_inv n f t c st) as [[_ ->] | H]; [assumption |].
      destruct H as (sn & sf & sd & seats & st' & _ & _ & _ & _ & Hins & ->).
      apply insert_bus_Ok in Hins as (_ & _ & ->). exact Hk.
    + destruct (book_ticket_inv p n d sn st) as [[_ ->] | H]; [assumption |].
      destruct H as (sp & sb & sd & seat & bus & st' & _ & _ & _ & _ & _ & _ & Hins & ->).
      apply insert_ticket_Ok in Hins as (_ & Hfresh & ->).
      unfold no_double_booking in *. simpl. rewrite map_app. simpl.
      now apply NoDup_snoc.
Qed.

(** C3, amended. In a reachable database, for a bus of capacity [C] whose
    stored name is not empty, a present passenger and date: [book_ticket]
    books every free seat number from 1 to [C].  For every bus, with or
    without a name, seat number 0 and seat number [C + 1] are answered with a
    [ValidationError] reply and nothing changes. *)
Theorem seat_range_one_to_capacity (p d : string) (bus : Bus.row) (st : store) :
  reachable st -> In bus (buses st) ->
  p <> EmptyString -> d <> EmptyString ->
  let n := Bus.bus_name bus in
  let C := Bus.total_seats bus in
  (n <> EmptyString ->
   forall seat : Z,
     1 <= seat <= C ->
     seat_taken (Bus.id bus, strip d, seat) st = false ->
     book_ticket (Some p) (Some n) (Some d) (PInt seat) st
     = (Returned (TicketBooked n d seat),
        {| buses := buses st;
           tickets := tickets st ++
             [ {| Ticket.id := next_id (map Ticket.id (tickets st));
                  Ticket.passenger_name := strip p;
                  Ticket.bus_id := Bus.id bus;
                  Ticket.travel_date := strip d;
                  Ticket.seat_number := seat |} ] |})) /\
  (book_ticket (Some p) (Some n) (Some d) (PInt 0) st
   = (Returned AllFieldsRequired, st) /\
   kind_of AllFieldsRequired = Some ValidationError) /\
  (failure (fst (book_ticket (Some p) (Some n) (Some d) (PInt (C + 1)) st))
   = Some ValidationError /\
   snd (book_ticket (Some p) (Some n) (Some d) (PInt (C + 1)) st) = st) /\
  (n <> EmptyString ->
   book_ticket (Some p) (Some n) (Some d) (PInt (C + 1)) st
   = (Returned (SeatOutOfRange C), st)).
Proof.
  intros Hr Hin Hp Hd n C. apply reachable_consistent in Hr.
  pose proof (consistent_capacity _ _ Hr Hin) as Hcap.
  pose proof (find_by_name_In _ _ (names_unique st Hr) Hin) as Hfind.
  fold n in Hfind. fold C in Hcap.
  assert (Habove : n <> EmptyString ->
            book_ticket (Some p) (Some n) (Some d) (PInt (C + 1)) st
            = (Returned (SeatOutOfRange C), st)).
  { intros Hname.
    assert (Htr : truthy (PInt (C + 1)) = true).
    { simpl. apply negb_true_iff, Z.eqb_neq. lia. }
    rewrite (book_ticket_found p n d (PInt (C + 1)) (C + 1) bus st Hp Hname Hd
               Htr eq_refl Hfind).
    fold C.
    replace (negb ((1 <=? C + 1) && (C + 1 <=? C))) with true; [reflexivity |].
    symmetry. apply negb_true_iff, andb_false_iff. right. apply Z.leb_gt. lia. }
  split; [| split; [| split; [| exact Habove]]].
  - intros Hname seat Hrange Hfree.
    assert (Htr : truthy (PInt seat) = true).
    { simpl. apply negb_true_iff, Z.eqb_neq. lia. }
    rewrite (book_ticket_found p n d (PInt seat) seat bus st Hp Hname Hd Htr
               eq_refl Hfind).
    fold C.
    replace (negb ((1 <=? seat) && (seat <=? C))) with false
      by (symmetry; apply negb_false_iff, andb_true_iff; rewrite !Z.leb_le; lia).
    unfold insert_ticket. rewrite Hfree.
    replace (fits_int64 seat) with true
      by (symmetry; apply fits_int64_iff; lia).
    reflexivity.
  - split; [| reflexivity].
    unfold book_ticket. simpl truthy. rewrite !andb_false_r. reflexivity.
  - destruct n as [| a n'] eqn:En.
    + unfold book_ticket. cbn [text_truthy]. rewrite !andb_false_r. auto.
    + rewrite Habove by discriminate. auto.
Qed.

Lemma add_bus_absent_text (n f t : option string) (c : pyval) (st : store) :
  text_truthy n = false \/ text_truthy f = false \/ text_truthy t = false ->
  add_bus n f t c st = (Returned AllFieldsRequired, st).
Proof.
  intros H. unfold add_bus.
  replace (text_truthy n && text_truthy f && text_truthy t) with false;
    [reflexivity |].
  symmetry. destruct H as [-> | [-> | ->]];
    rewrite ?andb_false_r; reflexivity.
Qed.

Lemma add_bus_absent_number (n f t : option string) (c : pyval) (st : store) :
  text_truthy n = true -> text_truthy f = true -> text_truthy t = true ->
  c = PNone \/ c = PStr EmptyString ->
  add_bus n f t c st = (Returned SeatsNotNumber, st).
Proof.
  intros Hn Hf Ht Hc. unfold add_bus, add_bus_try. rewrite Hn, Hf, Ht.
  destruct Hc as [-> | ->]; simpl; [reflexivity |].
  rewrite float_literal_empty. reflexivity.
Qed.

(** C4, amended. [add_bus] answers with a [ValidationError] reply and
    inserts no row whenever one of name, origin, destination is missing or
    the empty string (the test comes before the trimming, so text made of
    whitespace counts as present), or the capacity is missing or the empty
    string. *)
Theorem add_bus_rejects_absent_fields (n f t : option string) (c : pyval)
    (st : store) :
  (text_truthy n = false \/ text_truthy f = false \/ text_truthy t = false) \/
  (c = PNone \/ c = PStr EmptyString) ->
  failure (fst (add_bus n f t c st)) = Some ValidationError /\
  snd (add_bus n f t c st) = st.
Proof.
  intros [Htext | Hc].
  - rewrite (add_bus_absent_text _ _ _ _ _ Htext). auto.
  - destruct (text_truthy n) eqn:Hn;
      [| rewrite add_bus_absent_text; auto].
    destruct (text_truthy f) eqn:Hf;
      [| rewrite add_bus_absent_text; auto].
    destruct (text_truthy t) eqn:Ht;
      [| rewrite add_bus_absent_text; auto].
    rewrite (add_bus_absent_number _ _ _ _ _ Hn Hf Ht Hc). auto.
Qed.

(** C5, amended. [book_ticket] answers with a [ValidationError] reply and
    inserts no ticket whenever [int(seat_number)] raises [ValueError] (text
    that is no integer literal, or a NaN); a finite fractional number is not
    refused: it is cut toward zero and, when the result is not 0, handled as
    that integer (3.5 books seat 3). *)
Theorem seat_number_is_converted_by_int (p n d : option string) (st : store) :
  (forall sn : pyval,
      py_int sn = Exn ValueError ->
      failure (fst (book_ticket p n d sn st)) = Some ValidationError /\
      snd (book_ticket p n d sn st) = st) /\
  (forall (m e seat : Z),
      int_of_float (FFinite m e) = Ok seat -> seat <> 0 ->
      book_ticket p n d (PFloat (FFinite m e)) st
      = book_ticket p n d (PInt seat) st).
Proof.
  split.
  - intros sn Hint. unfold book_ticket.
    destruct (negb _); [auto |]. rewrite Hint. auto.
  - intros m e seat Hint Hseat. unfold book_ticket.
    assert (Hm : truthy (PFloat (FFinite m e)) = truthy (PInt seat)).
    { simpl. simpl in Hint. injection Hint as <-.
      destruct (Z.eqb_spec m 0) as [-> | Hm].
      - exfalso. apply Hseat. destruct (0 <=? e); reflexivity.
      - symmetry. apply negb_true_iff, Z.eqb_neq. exact Hseat. }
    rewrite Hm. cbn [py_int]. rewrite Hint. reflexivity.
Qed.

(** The row [add_bus] stores. *)
Lemma add_bus_stores (n f t : string) (c : pyval) (seats : Z) (st : store) :
  n <> EmptyString -> f <> EmptyString -> t <> EmptyString ->
  (x <- py_float c ;; int_of_float x) = Ok seats ->
  0 < seats < 2 ^ 63 -> name_taken (strip n) st = false ->
  add_bus (Some n) (Some f) (Some t) c st
  = (Returned (BusAdded n seats),
     {| buses := buses st ++
          [ {| Bus.id := next_id (map Bus.id (buses st));
               Bus.bus_name := strip n;
               Bus.from_city := strip f;
               Bus.to_city := strip t;
               Bus.total_seats := seats |} ];
        tickets := tickets st |}).
Proof.
  intros Hn Hf Ht Hc Hseats Hfree.
  rewrite (add_bus_converted _ _ _ _ _ _ Hn Hf Ht Hc).
  replace (seats <=? 0) with false by (symmetry; apply Z.leb_gt; lia).
  unfold insert_bus. rewrite Hfree.
  replace (fits_int64 seats) with true by (symmetry; apply fits_int64_iff; lia).
  replace (0 <? seats) with true by (symmetry; apply Z.ltb_lt; lia).
  reflexivity.
Qed.

(** C6. Given a capacity whose numeric value [m * 2^e] is a fractional
    binary64 number that is at least 1, with non-empty name, origin and
    destination and a (trimmed) name not in use, [add_bus] succeeds and
    stores the capacity cut down to the integer below it. *)
Theorem add_bus_truncates_fractional_capacity (n f t : string) (c : pyval)
    (m e : Z) (st : store) :
  n <> EmptyString -> f <> EmptyString -> t <> EmptyString ->
  py_float c = Ok (FFinite m e) -> is_binary64 m e = true ->
  e < 0 -> m mod 2 ^ (- e) <> 0 ->
  2 ^ (- e) <= m ->
  name_taken (strip n) st = false ->
  let seats := Z.quot m (2 ^ (- e)) in
  seats * 2 ^ (- e) < m < (seats + 1) * 2 ^ (- e) /\
  add_bus (Some n) (Some f) (Some t) c st
  = (Returned (BusAdded n seats),
     {| buses := buses st ++
          [ {| Bus.id := next_id (map Bus.id (buses st));
               Bus.bus_name := strip n;
               Bus.from_city := strip f;
               Bus.to_city := strip t;
               Bus.total_seats := seats |} ];
        tickets := tickets st |}).
Proof.
  intros Hn Hf Ht Hc Hbin He Hfrac Hge Hfree seats.
  assert (Hpow : 0 < 2 ^ (- e)) by (apply Z.pow_pos_nonneg; lia).
  assert (Hm : 0 < m) by lia.
  assert (Hq : seats = m / 2 ^ (- e))
    by (unfold seats; apply Z.quot_div_nonneg; lia).
  pose proof (Z.div_mod m (2 ^ (- e)) ltac:(lia)) as Hdm.
  pose proof (Z.mod_pos_bound m (2 ^ (- e)) Hpow) as Hmod.
  rewrite <- Hq in Hdm.
  assert (Hbounds : seats * 2 ^ (- e) < m < (seats + 1) * 2 ^ (- e)) by nia.
  split; [exact Hbounds |].
  apply add_bus_stores; try assumption.
  - rewrite Hc. simpl.
    replace (0 <=? e) with false by (symmetry; apply Z.leb_gt; lia).
    reflexivity.
  - unfold is_binary64 in Hbin.
    apply andb_true_iff in Hbin as [Hbin _].
    apply andb_true_iff in Hbin as [Hbin _]. apply Z.ltb_lt in Hbin.
    assert (1 <= seats) by nia.
    assert (seats <= m) by nia.
    assert (2 ^ 53 < 2 ^ 63) by (apply Z.pow_lt_mono_r; lia).
    lia.
Qed.

(** C7. In every database, the rows [view_bookings] fetches, the tickets
    joined with their buses, come in ascending order of travel date, then
    bus name, then seat number, whatever the order of the rows in the
    tables; they are the rows of the join, rearranged. *)
Theorem list_bookings_sorted (st : store) :
  StronglySorted booking_le (list_bookings st) /\
  Permutation (joined st) (list_bookings st).
Proof.
  unfold list_bookings. split; [apply order_by_sorted | apply order_by_perm].
Qed.

Lemma render_not_empty (r : reply) : render r <> EmptyString.
Proof. destruct r; simpl; discriminate. Qed.




Lemma float_of_int_exact (z : Z) :
  Z.abs z < 2 ^ 53 -> (x <- py_float (PInt z) ;; int_of_float x) = Ok z.
Proof.
  intros Hz. simpl. unfold float_of_int.
  replace (Z.abs z <? 2 ^ 53) with true by (symmetry; apply Z.ltb_lt; exact Hz).
  simpl. f_equal. lia.
Qed.

Lemma find_after_insert (row : Bus.row) (st : store) :
  name_taken (Bus.bus_name row) st = false ->
  find_by_name (Some (Bus.bus_name row))
    {| buses := buses st ++ [row]; tickets := tickets st |} = Some row.
Proof.
  unfold name_taken, find_by_name. cbn [buses].
  induction (buses st) as [| b l IH]; simpl.
  - intros _. now rewrite String.eqb_refl.
  - destruct (String.eqb (Bus.bus_name b) (Bus.bus_name row));
      [discriminate | exact IH].
Qed.

(** C9, amended. For non-empty name, origin and destination, a capacity that
    [int(float(.))] turns into [seats] with [0 < seats < 2^63] (an integer
    capacity below [2^53] is turned into itself) and a trimmed name not in
    use, [add_bus] succeeds, and looking up the trimmed name afterwards gives
    the bus whose name, origin and destination are the trimmed arguments and
    whose capacity is [seats]. *)
Theorem add_bus_then_find_by_name (n f t : string) (c : pyval) (seats : Z)
    (st : store) :
  n <> EmptyString -> f <> EmptyString -> t <> EmptyString ->
  (x <- py_float c ;; int_of_float x) = Ok seats -> 0 < seats < 2 ^ 63 ->
  name_taken (strip n) st = false ->
  let row := {| Bus.id := next_id (map Bus.id (buses st));
                Bus.bus_name := strip n;
                Bus.from_city := strip f;
                Bus.to_city := strip t;
                Bus.total_seats := seats |} in
  fst (add_bus (Some n) (Some f) (Some t) c st) = Returned (BusAdded n seats) /\
  find_by_name (Some (strip n)) (snd (add_bus (Some n) (Some f) (Some t) c st))
  = Some row /\
  (forall z : Z, c = PInt z -> Z.abs z < 2 ^ 53 -> seats = z).
Proof.
  intros Hn Hf Ht Hc Hseats Hfree row.
  rewrite (add_bus_stores _ _ _ _ _ _ Hn Hf Ht Hc Hseats Hfree).
  cbn [fst snd]. split; [reflexivity | split].
  - apply (find_after_insert row). exact Hfree.
  - intros z -> Hz. rewrite (float_of_int_exact z Hz) in Hc. congruence.
Qed.

(** C10. With name, origin and destination present and the capacity missing
    ([None] or the empty string), [add_bus] returns the reply 'Total seats
    must be a valid number', not 'All fields are required': the capacity is
    not part of the presence test.  No row is inserted. *)
Theorem missing_capacity_is_not_a_number (n f t : option string) (c : pyval)
    (st : store) :
  text_truthy n = true -> text_truthy f = true -> text_truthy t = true ->
  c = PNone \/ c = PStr EmptyString ->
  add_bus n f t c st = (Returned SeatsNotNumber, st) /\
  render SeatsNotNumber = "❌ Total seats must be a valid number."%string /\
  SeatsNotNumber <> AllFieldsRequired.
Proof.
  intros Hn Hf Ht Hc. split; [| split; [reflexivity | discriminate]].
  now apply add_bus_absent_number.
Qed.

End Claims.

(** * More of the program *)

(** ** What one call does to the tables *)

Section Effects.
Context {B : Builtins}.

(** [add_bus] leaves the database alone or appends one bus. *)
Lemma add_bus_effect (n f t : option string) (c : pyval) (st : store) :
  snd (add_bus n f t c st) = st \/
  exists sn sf sd seats,
    n = Some sn /\ f = Some sf /\ t = Some sd /\
    0 < seats < 2 ^ 63 /\
    ~ In (strip sn) (map Bus.bus_name (buses st)) /\
    snd (add_bus n f t c st)
    = {| buses := buses st ++
           [ {| Bus.id := next_id (map Bus.id (buses st));
                Bus.bus_name := strip sn; Bus.from_city := strip sf;
                Bus.to_city := strip sd; Bus.total_seats := seats |} ];
         tickets := tickets st |}.
Proof.
  destruct (add_bus_inv n f t c st) as [[_ H] | H]; [now left | right].
  destruct H as (sn & sf & sd & seats & st' & -> & -> & -> & _ & Hins & Heq).
  apply insert_bus_Ok in Hins as (Hseats & Hfree & ->).
  exists sn, sf, sd, seats. rewrite Heq. auto 10.
Qed.

(** [book_ticket] leaves the database alone or appends one ticket, for a bus
    of the table and a seat within its capacity. *)
Lemma book_ticket_effect (p n d : option string) (sn : pyval) (st : store) :
  snd (book_ticket p n d sn st) = st \/
  exists sp sd seat bus,
    p = Some sp /\ d = Some sd /\ In bus (buses st) /\
    1 <= seat <= Bus.total_seats bus /\
    ~ In (Bus.id bus, strip sd, seat) (map Ticket.key (tickets st)) /\
    snd (book_ticket p n d sn st)
    = {| buses := buses st;
         tickets := tickets st ++
           [ {| Ticket.id := next_id (map Ticket.id (tickets st));
                Ticket.passenger_name := strip sp;
                Ticket.bus_id := Bus.id bus;
                Ticket.travel_date := strip sd;
                Ticket.seat_number := seat |} ] |}.
Proof.
  destruct (book_ticket_inv p n d sn st) as [[_ H] | H]; [now left | right].
  destruct H as (sp & sb & sd & seat & bus & st' & -> & -> & -> & _ & Hf & Hr
                 & Hins & Heq).
  apply insert_ticket_Ok in Hins as (_ & Hfree & ->).
  apply find_by_name_Some in Hf as [Hin _].
  exists sp, sd, seat, bus. rewrite Heq. auto 10.
Qed.

(** X1. [add_bus] never touches the tickets table, and [book_ticket] never
    touches the buses table: whatever the arguments and the outcome, the
    other table, and with it the bus listing and the names offered for
    booking, is the same after the call. *)
Theorem each_call_keeps_the_other_table :
  (forall (n f t : option string) (c : pyval) (st : store),
      tickets (snd (add_bus n f t c st)) = tickets st) /\
  (forall (p n d : option string) (sn : pyval) (st : store),
      buses (snd (book_ticket p n d sn st)) = buses st /\
      view_buses (snd (book_ticket p n d sn st)) = view_buses st /\
      get_bus_choices (snd (book_ticket p n d sn st)) = get_bus_choices st).
Proof.
  split.
  - intros n f t c st.
    destruct (add_bus_effect n f t c st) as [-> | H]; [reflexivity |].
    destruct H as (? & ? & ? & ? & _ & _ & _ & _ & _ & ->). reflexivity.
  - intros p n d sn st.
    assert (H : buses (snd (book_ticket p n d sn st)) = buses st).
    { destruct (book_ticket_effect p n d sn st) as [-> | H]; [reflexivity |].
      destruct H as (? & ? & ? & ? & _ & _ & _ & _ & _ & ->). reflexivity. }
    unfold view_buses, get_bus_choices. rewrite H. auto.
Qed.

Lemma handle_appends (r : request) (st : store) :
  exists bs ts,
    buses (snd (handle r st)) = buses st ++ bs /\
    tickets (snd (handle r st)) = tickets st ++ ts /\
    (List.length bs + List.length ts <= 1)%nat.
Proof.
  destruct r as [n f t c | p n d sn]; simpl.
  - destruct (add_bus_effect n f t c st) as [-> | H].
    + exists [], []. rewrite !app_nil_r. auto.
    + destruct H as (? & ? & ? & ? & _ & _ & _ & _ & _ & ->).
      eexists [_], []. rewrite app_nil_r. simpl. auto.
  - destruct (book_ticket_effect p n d sn st) as [-> | H].
    + exists [], []. rewrite !app_nil_r. auto.
    + destruct H as (? & ? & ? & ? & _ & _ & _ & _ & _ & ->).
      eexists [], [_]. rewrite app_nil_r. simpl. auto.
Qed.

Lemma run_appends (rs : list request) (st : store) :
  exists bs ts,
    buses (run rs st) = buses st ++ bs /\
    tickets (run rs st) = tickets st ++ ts /\
    (List.length bs + List.length ts <= List.length rs)%nat.
Proof.
  induction rs as [| r rs IH] using rev_ind.
  - exists [], []. rewrite !app_nil_r. auto.
  - destruct IH as (bs & ts & Hb & Ht & Hlen).
    destruct (handle_appends r (run rs st)) as (bs' & ts' & Hb' & Ht' & Hlen').
    exists (bs ++ bs'), (ts ++ ts').
    rewrite run_snoc, Hb', Ht', Hb, Ht, !app_assoc, !length_app.
    simpl. repeat split; lia.
Qed.

(** X2. Rows are only ever added: after any sequence of calls both tables
    start with the rows they had, unchanged and in the same order, followed
    by at most one new row per call. *)
Theorem tables_only_grow (rs : list request) (st : store) :
  exists bs ts,
    buses (run rs st) = buses st ++ bs /\
    tickets (run rs st) = tickets st ++ ts /\
    (List.length bs + List.length ts <= List.length rs)%nat.
Proof. apply run_appends. Qed.

(** ** Rowids *)

Lemma fold_max_ids_up_to (n : nat) :
  fold_right Z.max 0 (ids_up_to n) = Z.of_nat n.
Proof.
  unfold ids_up_to. induction n as [| n IH]; [reflexivity |].
  rewrite seq_S, map_app, fold_right_app. simpl fold_right at 2.
  replace (Z.max (Z.of_nat (1 + n)) 0) with (Z.of_nat (1 + n)) by lia.
  assert (Hmono : forall l a, 0 <= a ->
            (forall x, In x l -> x <= a) -> fold_right Z.max a l = a).
  { induction l as [| y l IHl]; simpl; intros a Ha Hall; [reflexivity |].
    rewrite IHl by auto. specialize (Hall y (or_introl eq_refl)). lia. }
  apply Hmono; [lia |].
  intros x Hx. apply in_map_iff in Hx as (k & <- & Hk).
  apply in_seq in Hk. lia.
Qed.

Lemma next_id_ids_up_to (n : nat) : next_id (ids_up_to n) = Z.of_nat (S n).
Proof. unfold next_id. rewrite fold_max_ids_up_to. lia. Qed.

Lemma ids_up_to_S (n : nat) : ids_up_to (S n) = ids_up_to n ++ [Z.of_nat (S n)].
Proof. unfold ids_up_to. now rewrite seq_S, map_app. Qed.

Lemma ids_up_to_NoDup (n : nat) : NoDup (ids_up_to n).
Proof.
  induction n as [| n IH]; [constructor |].
  rewrite ids_up_to_S. apply NoDup_snoc; [exact IH |].
  unfold ids_up_to. intros Hin. apply in_map_iff in Hin as (k & Hk & Hin).
  apply in_seq in Hin. lia.
Qed.

Lemma handle_counted (r : request) (st : store) :
  counted st -> counted (snd (handle r st)).
Proof.
  intros [Hb Ht]. destruct r as [n f t c | p n d sn]; simpl.
  - destruct (add_bus_effect n f t c st) as [-> | H]; [now split |].
    destruct H as (? & ? & ? & ? & _ & _ & _ & _ & _ & ->).
    split; simpl; [| exact Ht].
    rewrite map_app, length_app, Nat.add_1_r, ids_up_to_S. simpl.
    rewrite Hb at 2. rewrite next_id_ids_up_to. now rewrite <- Hb.
  - destruct (book_ticket_effect p n d sn st) as [-> | H]; [now split |].
    destruct H as (? & ? & ? & ? & _ & _ & _ & _ & _ & ->).
    split; simpl; [exact Hb |].
    rewrite map_app, length_app, Nat.add_1_r, ids_up_to_S. simpl.
    rewrite Ht at 2. rewrite next_id_ids_up_to. now rewrite <- Ht.
Qed.

Lemma run_counted (rs : list request) : counted (run rs empty_store).
Proof.
  induction rs as [| r rs IH] using rev_ind; [split; reflexivity |].
  rewrite run_snoc. now apply handle_counted.
Qed.

(** X3. Starting from empty tables, the rowids count up from 1 without
    gaps: the k-th bus added has id k and the k-th ticket booked has id k;
    a refused call uses up no id. *)
Theorem rowids_count_up (rs : list request) :
  map Bus.id (buses (run rs empty_store))
  = ids_up_to (List.length (buses (run rs empty_store))) /\
  map Ticket.id (tickets (run rs empty_store))
  = ids_up_to (List.length (tickets (run rs empty_store))).
Proof. apply run_counted. Qed.

End Effects.

(** ** What holds of every database the program can build *)

Section Invariants.
Context {B : Builtins}.

(** X4. Starting from empty tables, no two buses ever share a name or an
    id, and every stored capacity is a positive integer that fits in 64
    bits. *)
Theorem bus_rows_are_well_formed (rs : list request) :
  let st := run rs empty_store in
  NoDup (map Bus.bus_name (buses st)) /\
  NoDup (map Bus.id (buses st)) /\
  forall b, In b (buses st) -> 1 <= Bus.total_seats b <= 2 ^ 63 - 1.
Proof.
  intros st. pose proof (reachable_consistent st (reachable_run rs)) as Hc.
  split; [apply (names_unique st Hc) | split; [apply (bus_ids_unique st Hc) |]].
  intros b Hb.
  pose proof (proj1 (Forall_forall _ _) (seats_bounded st Hc) b Hb) as H.
  cbv beta in H. lia.
Qed.

Lemma consistent_bus_of_ticket (st : store) (t : Ticket.row) :
  consistent st -> In t (tickets st) ->
  exists b, In b (buses st) /\ Bus.id b = Ticket.bus_id t /\
            1 <= Ticket.seat_number t <= Bus.total_seats b /\
            forall b', In b' (buses st) -> Bus.id b' = Ticket.bus_id t -> b' = b.
Proof.
  intros Hc Ht.
  destruct (proj1 (Forall_forall _ _) (tickets_refer st Hc) t Ht)
    as (b & Hb & Hid & Hseat).
  exists b. repeat split; try assumption; try lia.
  intros b' Hb' Hid'.
  pose proof (filter_one_by_id b (buses st) (bus_ids_unique st Hc) Hb) as Hf.
  assert (Hin : In b' (filter (fun x => Bus.id b =? Bus.id x) (buses st))).
  { apply filter_In. split; [assumption |]. apply Z.eqb_eq. congruence. }
  rewrite Hf in Hin. destruct Hin as [<- | []]. reflexivity.
Qed.

(** X5. Starting from empty tables, every ticket refers to exactly one bus
    of the buses table, and its seat number lies between 1 and the capacity
    of that bus. *)
Theorem tickets_refer_to_buses (rs : list request) (t : Ticket.row) :
  In t (tickets (run rs empty_store)) ->
  exists b,
    In b (buses (run rs empty_store)) /\
    Bus.id b = Ticket.bus_id t /\
    1 <= Ticket.seat_number t <= Bus.total_seats b /\
    forall b', In b' (buses (run rs empty_store)) ->
               Bus.id b' = Ticket.bus_id t -> b' = b.
Proof.
  apply consistent_bus_of_ticket, reachable_consistent, reachable_run.
Qed.

Lemma booked_on_seats_NoDup (bid : Z) (d : string) (l : list Ticket.row) :
  NoDup (map Ticket.key l) ->
  NoDup (map Ticket.seat_number
           (filter (fun t => (Ticket.bus_id t =? bid)
                             && String.eqb (Ticket.travel_date t) d) l)).
Proof.
  induction l as [| t l IH]; simpl; intros Hnd; [constructor |].
  apply NoDup_cons_iff in Hnd as [Hnotin Hnd].
  destruct ((Ticket.bus_id t =? bid) && String.eqb (Ticket.travel_date t) d)
    eqn:Ht; [| now apply IH].
  simpl. constructor; [| now apply IH].
  intros Hin. apply in_map_iff in Hin as (t' & Hseat & Hin).
  apply filter_In in Hin as [Hin Ht'].
  apply andb_true_iff in Ht as [Hb Hd]. apply andb_true_iff in Ht' as [Hb' Hd'].
  apply Z.eqb_eq in Hb, Hb'. apply String.eqb_eq in Hd, Hd'.
  apply Hnotin. apply in_map_iff. exists t'. split; [| assumption].
  unfold Ticket.key. congruence.
Qed.

Lemma seats_in_range_count (l : list Z) (C : Z) :
  NoDup l -> (forall x, In x l -> 1 <= x <= C) ->
  (List.length l <= Z.to_nat C)%nat.
Proof.
  intros Hnd Hall.
  rewrite <- (length_seq (Z.to_nat C) 1), <- (length_map Z.of_nat).
  apply NoDup_incl_length; [assumption |].
  intros x Hx. specialize (Hall x Hx). apply in_map_iff.
  exists (Z.to_nat x). split; [lia | apply in_seq; lia].
Qed.

(** X6. No bus is ever overbooked: starting from empty tables, the number of
    tickets for a bus on one travel date never exceeds the capacity of the
    bus. *)
Theorem no_bus_is_overbooked (rs : list request) (b : Bus.row) (d : string) :
  In b (buses (run rs empty_store)) ->
  (List.length (booked_on (Bus.id b) d (run rs empty_store))
   <= Z.to_nat (Bus.total_seats b))%nat.
Proof.
  intros Hb. set (st := run rs empty_store) in *.
  pose proof (reachable_consistent st (reachable_run rs)) as Hc.
  rewrite <- (length_map Ticket.seat_number).
  apply seats_in_range_count.
  - apply booked_on_seats_NoDup. exact (keys_unique st Hc).
  - intros x Hx. apply in_map_iff in Hx as (t & <- & Ht).
    apply filter_In in Ht as [Ht Hsel].
    apply andb_true_iff in Hsel as [Hid _]. apply Z.eqb_eq in Hid.
    destruct (consistent_bus_of_ticket st t Hc Ht) as (b' & _ & _ & Hseat & Huniq).
    rewrite <- (Huniq b Hb (eq_sym Hid)) in Hseat. exact Hseat.
Qed.

End Invariants.

(** ** The names offered for booking *)

Lemma string_leb_le (s1 s2 : string) : String.leb s1 s2 = true <-> text_le s1 s2.
Proof.
  unfold String.leb, text_le, text_lt.
  destruct (String.compare s1 s2) eqn:Hc.
  - apply string_compare_eq in Hc. split; auto.
  - split; auto.
  - split; [discriminate |]. intros [H | ->]; [discriminate |].
    rewrite string_compare_refl in Hc. discriminate.
Qed.

Lemma string_leb_false (s1 s2 : string) :
  String.leb s1 s2 = false -> text_le s2 s1.
Proof.
  intros H. destruct (String.leb_total s1 s2) as [H' | H']; [congruence |].
  now apply string_leb_le.
Qed.

Lemma text_le_trans (s1 s2 s3 : string) :
  text_le s1 s2 -> text_le s2 s3 -> text_le s1 s3.
Proof.
  intros [H12 | ->] [H23 | ->]; unfold text_le; auto.
  left. eapply text_lt_trans; eassumption.
Qed.

Lemma place_name_perm (n : string) (names : list string) :
  Permutation (n :: names) (place_name n names).
Proof.
  induction names as [| n' names IH]; simpl; [reflexivity |].
  destruct (String.leb n n'); [reflexivity |].
  rewrite perm_swap. now apply perm_skip.
Qed.

Lemma place_name_sorted (n : string) (names : list string) :
  StronglySorted text_le names -> StronglySorted text_le (place_name n names).
Proof.
  induction names as [| n' names IH]; simpl; intros Hs.
  - repeat constructor.
  - apply StronglySorted_inv in Hs as [Hs Hall].
    destruct (String.leb n n') eqn:Hle.
    + apply string_leb_le in Hle. constructor; [now constructor |].
      constructor; [assumption |].
      eapply Forall_impl; [| exact Hall].
      intros x Hx. eapply text_le_trans; eassumption.
    + apply string_leb_false in Hle. constructor; [now apply IH |].
      eapply Permutation_Forall; [apply place_name_perm |]. now constructor.
Qed.

Lemma order_names_perm (names : list string) :
  Permutation names (order_names names).
Proof.
  induction names as [| n names IH]; simpl; [reflexivity |].
  rewrite <- place_name_perm. now apply perm_skip.
Qed.

Lemma order_names_sorted (names : list string) :
  StronglySorted text_le (order_names names).
Proof.
  induction names as [| n names IH]; simpl;
    [constructor | now apply place_name_sorted].
Qed.

Lemma In_get_bus_choices (n : string) (st : store) :
  In n (get_bus_choices st) <-> In n (map Bus.bus_name (buses st)).
Proof.
  unfold get_bus_choices. split; apply Permutation_in;
    [symmetry |]; apply order_names_perm.
Qed.


Section Choices.
Context {B : Builtins}.

(** X7. [get_bus_choices] returns exactly the bus names of the table, each
    as often as it is stored, in ascending byte order; starting from empty
    tables no name comes twice. *)
Theorem get_bus_choices_sorted :
  (forall st : store,
      StronglySorted text_le (get_bus_choices st) /\
      Permutation (map Bus.bus_name (buses st)) (get_bus_choices st)) /\
  (forall rs : list request, NoDup (get_bus_choices (run rs empty_store))).
Proof.
  split.
  - intros st. split; [apply order_names_sorted | apply order_names_perm].
  - intros rs. eapply Permutation_NoDup; [apply order_names_perm |].
    apply names_unique, reachable_consistent, reachable_run.
Qed.


(** X9. A successful [add_bus] adds the trimmed name, and nothing else, to
    the names [get_bus_choices] offers; a call that does not succeed leaves
    them as they are. *)
Theorem add_bus_offers_the_trimmed_name (n : string) (f t : option string)
    (c : pyval) (st : store) :
  (succeeded (fst (add_bus (Some n) f t c st)) = true ->
   Permutation (strip n :: get_bus_choices st)
     (get_bus_choices (snd (add_bus (Some n) f t c st)))) /\
  (succeeded (fst (add_bus (Some n) f t c st)) = false ->
   get_bus_choices (snd (add_bus (Some n) f t c st)) = get_bus_choices st).
Proof.
  destruct (add_bus_inv (Some n) f t c st) as [[Hs Hst] | H].
  - rewrite Hs, Hst. split; [discriminate | reflexivity].
  - destruct H as (sn & sf & sd & seats & st' & [= <-] & _ & _ & _ & Hins & Heq).
    rewrite Heq. cbn [fst snd succeeded]. split; [intros _ | discriminate].
    apply insert_bus_Ok in Hins as (_ & _ & ->).
    unfold get_bus_choices. cbn [buses]. rewrite map_app. simpl.
    rewrite <- order_names_perm, <- order_names_perm.
    apply Permutation_cons_append.
Qed.

End Choices.

(** ** When the two operations succeed, and what can escape from them *)

Section Outcomes.
Context {B : Builtins}.

Lemma text_truthy_string (s : string) :
  text_truthy (Some s) = true <-> s <> EmptyString.
Proof. destruct s; simpl; split; congruence. Qed.

(** X10. [add_bus] succeeds exactly when name, origin and destination are
    non-empty texts, [int(float(total_seats))] is an integer from 1 to
    [2^63 - 1], and the trimmed name is not among the names already
    offered. *)
Theorem add_bus_succeeds_iff (n f t : option string) (c : pyval) (st : store) :
  succeeded (fst (add_bus n f t c st)) = true <->
  exists sn sf sd seats,
    n = Some sn /\ f = Some sf /\ t = Some sd /\
    sn <> EmptyString /\ sf <> EmptyString /\ sd <> EmptyString /\
    (x <- py_float c ;; int_of_float x) = Ok seats /\
    1 <= seats <= 2 ^ 63 - 1 /\
    ~ In (strip sn) (get_bus_choices st).
Proof.
  split.
  - intros Hs.
    destruct (add_bus_inv n f t c st) as [[Hf _] | H]; [congruence |].
    destruct H as (sn & sf & sd & seats & st' & -> & -> & -> & Hc & Hins & _).
    apply insert_bus_Ok in Hins as (Hseats & Hfree & _).
    exists sn, sf, sd, seats. rewrite In_get_bus_choices.
    assert (Htr : text_truthy (Some sn) = true /\ text_truthy (Some sf) = true
                  /\ text_truthy (Some sd) = true).
    { destruct (text_truthy (Some sn)) eqn:H1;
        [| rewrite add_bus_absent_text in Hs by auto; discriminate].
      destruct (text_truthy (Some sf)) eqn:H2;
        [| rewrite add_bus_absent_text in Hs by auto; discriminate].
      destruct (text_truthy (Some sd)) eqn:H3;
        [| rewrite add_bus_absent_text in Hs by auto; discriminate].
      auto. }
    destruct Htr as (H1 & H2 & H3).
    apply text_truthy_string in H1, H2, H3.
    repeat split; try assumption; lia.
  - intros (sn & sf & sd & seats & -> & -> & -> & Hn & Hf & Ht & Hc & Hseats
            & Hfree).
    rewrite In_get_bus_choices in Hfree. apply name_taken_false in Hfree.
    rewrite (add_bus_stores sn sf sd c seats st Hn Hf Ht Hc ltac:(lia) Hfree).
    reflexivity.
Qed.

(** X11. [book_ticket] succeeds exactly when passenger, bus name and date
    are non-empty texts, the seat number is truthy and [int] converts it,
    the bus name is found, the seat lies between 1 and the capacity of that
    bus (and fits in 64 bits), and no ticket holds that bus, trimmed date
    and seat. *)
Theorem book_ticket_succeeds_iff (p n d : option string) (sn : pyval)
    (st : store) :
  succeeded (fst (book_ticket p n d sn st)) = true <->
  exists sp sb sd seat bus,
    p = Some sp /\ n = Some sb /\ d = Some sd /\
    sp <> EmptyString /\ sb <> EmptyString /\ sd <> EmptyString /\
    truthy sn = true /\ py_int sn = Ok seat /\
    find_by_name (Some sb) st = Some bus /\
    1 <= seat <= Bus.total_seats bus /\ seat < 2 ^ 63 /\
    seat_taken (Bus.id bus, strip sd, seat) st = false.
Proof.
  split.
  - intros Hs.
    destruct (text_truthy p && text_truthy n && text_truthy d && truthy sn)
      eqn:Htr; [| unfold book_ticket in Hs; rewrite Htr in Hs; discriminate].
    apply andb_true_iff in Htr as [Htr Hsn]. apply andb_true_iff in Htr as [Htr Hd].
    apply andb_true_iff in Htr as [Hp Hn].
    apply text_truthy_Some in Hp as (sp & -> & Hp).
    apply text_truthy_Some in Hn as (sb & -> & Hn).
    apply text_truthy_Some in Hd as (sd & -> & Hd).
    destruct (book_ticket_inv (Some sp) (Some sb) (Some sd) sn st)
      as [[Hf _] | H]; [congruence |].
    destruct H as (sp' & sb' & sd' & seat & bus & st' & [= <-] & [= <-] & [= <-]
                   & Hint & Hfind & Hrange & Hins & _).
    apply insert_ticket_Ok in Hins as (Hfit & Hfree & _).
    apply seat_taken_false in Hfree.
    exists sp, sb, sd, seat, bus. repeat split; try assumption; lia.
  - intros (sp & sb & sd & seat & bus & -> & -> & -> & Hp & Hn & Hd & Hsn & Hint
            & Hfind & Hrange & Hfit & Hfree).
    rewrite (book_ticket_found _ _ _ _ _ _ _ Hp Hn Hd Hsn Hint Hfind).
    replace (negb ((1 <=? seat) && (seat <=? Bus.total_seats bus))) with false
      by (symmetry; apply negb_false_iff, andb_true_iff; rewrite !Z.leb_le; lia).
    unfold insert_ticket. rewrite Hfree.
    replace (fits_int64 seat) with true
      by (symmetry; apply fits_int64_iff; lia).
    reflexivity.
Qed.





End Outcomes.

Section Bookings.
Context {B : Builtins}.



Lemma truncation_below_one (m e : Z) :
  (if 0 <=? e then m <= 0 else m < 2 ^ (- e)) ->
  (if 0 <=? e then m * 2 ^ e else Z.quot m (2 ^ (- e))) <= 0.
Proof.
  destruct (Z.leb_spec 0 e) as [He | He]; intros Hm.
  - assert (0 < 2 ^ e) by (apply Z.pow_pos_nonneg; lia). nia.
  - assert (Hpow : 0 < 2 ^ (- e)) by (apply Z.pow_pos_nonneg; lia).
    destruct (Z.lt_ge_cases m 0) as [Hneg | Hnn].
    + rewrite <- (Z.opp_involutive m), Z.quot_opp_l by lia.
      assert (0 <= Z.quot (- m) (2 ^ (- e))) by (apply Z.quot_pos; lia). lia.
    + rewrite Z.quot_small by lia. lia.
Qed.

(** X14. A capacity that [float] converts to a finite number below 1 (zero,
    a finite negative number, or a fraction such as 0.5) is refused: with
    name, origin and destination present, [add_bus] answers 'Total seats must
    be a positive integer.' and inserts nothing.  (Infinities and ints too
    large for a float are not finite numbers; they raise instead.) *)
Theorem add_bus_refuses_capacity_below_one (n f t : string) (c : pyval)
    (m e : Z) (st : store) :
  n <> EmptyString -> f <> EmptyString -> t <> EmptyString ->
  py_float c = Ok (FFinite m e) ->
  (if 0 <=? e then m <= 0 else m < 2 ^ (- e)) ->
  add_bus (Some n) (Some f) (Some t) c st = (Returned SeatsNotPositive, st).
Proof.
  intros Hn Hf Ht Hc Hm.
  assert (Hconv : (x <- py_float c ;; int_of_float x)
                  = Ok (if 0 <=? e then m * 2 ^ e else Z.quot m (2 ^ (- e))))
    by (rewrite Hc; reflexivity).
  rewrite (add_bus_converted _ _ _ _ _ _ Hn Hf Ht Hconv).
  replace (_ <=? 0) with true; [reflexivity |].
  symmetry. apply Z.leb_le. now apply truncation_below_one.
Qed.

Lemma find_by_name_grows (n : option string) (bus : Bus.row) (st st' : store)
    (bs : list Bus.row) :
  buses st' = buses st ++ bs ->
  find_by_name n st = Some bus -> find_by_name n st' = Some bus.
Proof.
  intros Hb. destruct n as [n |]; simpl; [| discriminate].
  rewrite Hb. clear Hb.
  induction (buses st) as [| b l IH]; simpl; [discriminate |].
  destruct (String.eqb (Bus.bus_name b) n); [intros H; exact H | exact IH].
Qed.

Lemma seat_taken_grows (k : Z * string * Z) (st st' : store)
    (ts : list Ticket.row) :
  tickets st' = tickets st ++ ts ->
  seat_taken k st = true -> seat_taken k st' = true.
Proof.
  unfold seat_taken. intros -> H. rewrite existsb_app, H. reflexivity.
Qed.

(** X15. A booked seat stays booked: once [book_ticket] has succeeded for a
    bus, date and seat, every later call for that bus name, a date that is
    the same after trimming and a seat number that converts to the same
    integer is answered 'That seat is already booked on that date.', whatever
    calls were made in between. *)
Theorem booked_seat_stays_booked (p n d p' d' : string) (sn sn' : pyval)
    (seat : Z) (st st' : store) (rs : list request) :
  book_ticket (Some p) (Some n) (Some d) sn st
  = (Returned (TicketBooked n d seat), st') ->
  p' <> EmptyString -> d' <> EmptyString -> strip d' = strip d ->
  truthy sn' = true -> py_int sn' = Ok seat ->
  book_ticket (Some p') (Some n) (Some d') sn' (run rs st')
  = (Returned SeatTaken, run rs st').
Proof.
  intros Hbook Hp' Hd' Hdate Hsn' Hint'.
  destruct (book_ticket_inv (Some p) (Some n) (Some d) sn st) as [[Hf _] | H];
    [rewrite Hbook in Hf; discriminate |].
  destruct H as (sp & sb & sd & seat0 & bus & st0 & [= <-] & [= <-] & [= <-]
                 & _ & Hfind & Hrange & Hins & Heq).
  rewrite Hbook in Heq. injection Heq as <- <-.
  assert (Hn : n <> EmptyString).
  { intros ->. unfold book_ticket in Hbook. cbn [text_truthy] in Hbook.
    rewrite !andb_false_r in Hbook. discriminate. }
  apply insert_ticket_Ok in Hins as (Hfit & _ & ->).
  destruct (run_appends rs
              {| buses := buses st;
                 tickets := tickets st ++
                   [ {| Ticket.id := next_id (map Ticket.id (tickets st));
                        Ticket.passenger_name := strip p;
                        Ticket.bus_id := Bus.id bus;
                        Ticket.travel_date := strip d;
                        Ticket.seat_number := seat |} ] |})
    as (bs & ts & Hb & Ht & _).
  set (now := run rs _) in *. cbn [buses tickets] in Hb, Ht.
  assert (Hfind' : find_by_name (Some n) now = Some bus)
    by (eapply find_by_name_grows; eassumption).
  rewrite (book_ticket_found _ _ _ _ _ _ _ Hp' Hn Hd' Hsn' Hint' Hfind').
  replace (negb ((1 <=? seat) && (seat <=? Bus.total_seats bus))) with false
    by (symmetry; apply negb_false_iff, andb_true_iff; rewrite !Z.leb_le; lia).
  unfold insert_ticket.
  replace (fits_int64 seat) with true by (symmetry; apply fits_int64_iff; lia).
  cbn [negb].
  replace (seat_taken (Bus.id bus, strip d', seat) now) with true; [reflexivity |].
  symmetry. unfold seat_taken. rewrite Ht, !existsb_app. cbn [existsb].
  rewrite Hdate.
  replace (key_eqb _ (Bus.id bus, strip d, seat)) with true
    by (symmetry; now apply key_eqb_eq).
  rewrite orb_true_r. reflexivity.
Qed.

End Bookings.

(** ** The two listings *)

Lemma joined_booking_of (st : store) :
  joined st
  = flat_map (fun t => map (booking_of t)
                         (filter (fun b => Ticket.bus_id t =? Bus.id b) (buses st)))
             (tickets st).
Proof. reflexivity. Qed.

Lemma In_joined (r : Booking.row) (st : store) :
  In r (joined st) <->
  exists t b, In t (tickets st) /\ In b (buses st) /\
              Bus.id b = Ticket.bus_id t /\ r = booking_of t b.
Proof.
  rewrite joined_booking_of, in_flat_map. split.
  - intros (t & Ht & Hr). apply in_map_iff in Hr as (b & <- & Hb).
    apply filter_In in Hb as [Hb Hid]. apply Z.eqb_eq in Hid.
    exists t, b. auto.
  - intros (t & b & Ht & Hb & Hid & ->). exists t. split; [assumption |].
    apply in_map, filter_In. split; [assumption |]. apply Z.eqb_eq. auto.
Qed.

Lemma In_list_bookings (r : Booking.row) (st : store) :
  In r (list_bookings st) <-> In r (joined st).
Proof.
  unfold list_bookings. split; apply Permutation_in;
    [symmetry |]; apply order_by_perm.
Qed.

Lemma string_append_assoc (s1 s2 s3 : string) :
  ((s1 ++ s2) ++ s3 = s1 ++ (s2 ++ s3))%string.
Proof. induction s1 as [| a s1 IH]; simpl; [reflexivity | now rewrite IH]. Qed.

Lemma concat_snoc (sep x y : string) (l : list string) :
  String.concat sep ((x :: l) ++ [y])
  = (String.concat sep (x :: l) ++ sep ++ y)%string.
Proof.
  revert x. induction l as [| z l IH]; intros x; [reflexivity |].
  change (String.concat sep ((x :: z :: l) ++ [y]))
    with (x ++ sep ++ String.concat sep ((z :: l) ++ [y]))%string.
  rewrite IH.
  change (String.concat sep (x :: z :: l))
    with (x ++ sep ++ String.concat sep (z :: l))%string.
  now rewrite !string_append_assoc.
Qed.

Lemma joined_after_new_bus (st : store) (row : Bus.row) :
  consistent st -> ~ In (Bus.id row) (map Bus.id (buses st)) ->
  joined {| buses := buses st ++ [row]; tickets := tickets st |} = joined st.
Proof.
  intros Hc Hfresh. unfold joined. cbn [buses tickets].
  pose proof (tickets_refer st Hc) as Hrefer.
  induction Hrefer as [| t l (b & Hb & Hid & _) _ IH]; simpl; [reflexivity |].
  rewrite IH, filter_app. simpl.
  destruct (Z.eqb_spec (Ticket.bus_id t) (Bus.id row)) as [Heq | _];
    [| now rewrite app_nil_r].
  exfalso. apply Hfresh. rewrite <- Heq, <- Hid. now apply in_map.
Qed.

Section Listings.
Context {B : Builtins}.

(** X16. Starting from empty tables, [view_bookings] returns 'No bookings
    yet.' exactly when there is no ticket. *)
Theorem view_bookings_empty_iff (rs : list request) :
  view_bookings (run rs empty_store) = "No bookings yet."%string
  <-> tickets (run rs empty_store) = [].
Proof.
  set (st := run rs empty_store).
  pose proof (reachable_consistent st (reachable_run rs)) as Hc.
  pose proof (joined_one_per_ticket st Hc) as Hids.
  pose proof (order_by_perm (joined st)) as Hperm.
  unfold view_bookings, list_bookings. split.
  - destruct (order_by (joined st)) as [| r rows] eqn:Hrows.
    + intros _. apply Permutation_sym, Permutation_nil in Hperm.
      rewrite Hperm in Hids.
      destruct (tickets st); [reflexivity | discriminate].
    + destruct rows; simpl; discriminate.
  - intros Ht. rewrite Ht in Hids.
    destruct (joined st); [reflexivity | discriminate].
Qed.

(** X17. Adding a bus never changes the bookings: starting from empty
    tables, [view_bookings] shows the same rows in the same order before and
    after any [add_bus] call. *)
Theorem add_bus_keeps_bookings (rs : list request) (n f t : option string)
    (c : pyval) :
  let st := run rs empty_store in
  list_bookings (snd (add_bus n f t c st)) = list_bookings st /\
  view_bookings (snd (add_bus n f t c st)) = view_bookings st.
Proof.
  intros st. pose proof (reachable_consistent st (reachable_run rs)) as Hc.
  assert (H : list_bookings (snd (add_bus n f t c st)) = list_bookings st).
  { destruct (add_bus_effect n f t c st) as [-> | H]; [reflexivity |].
    destruct H as (? & ? & ? & ? & _ & _ & _ & _ & _ & ->).
    unfold list_bookings. rewrite joined_after_new_bus; [reflexivity | exact Hc |].
    apply next_id_fresh. }
  unfold view_bookings. rewrite H. auto.
Qed.

(** X18. A ticket that was booked is listed: after a successful
    [book_ticket], the rows [view_bookings] fetches contain one with the new
    ticket id, the trimmed passenger name, the bus name as passed, the
    trimmed date and the seat. *)
Theorem booked_ticket_is_listed (p n d : string) (sn : pyval) (seat : Z)
    (st st' : store) :
  book_ticket (Some p) (Some n) (Some d) sn st
  = (Returned (TicketBooked n d seat), st') ->
  In {| Booking.id := next_id (map Ticket.id (tickets st));
        Booking.passenger_name := strip p;
        Booking.bus_name := n;
        Booking.travel_date := strip d;
        Booking.seat_number := seat |} (list_bookings st').
Proof.
  intros Hbook.
  destruct (book_ticket_inv (Some p) (Some n) (Some d) sn st) as [[Hf _] | H];
    [rewrite Hbook in Hf; discriminate |].
  destruct H as (sp & sb & sd & seat0 & bus & st0 & [= <-] & [= <-] & [= <-]
                 & _ & Hfind & _ & Hins & Heq).
  rewrite Hbook in Heq. injection Heq as <- <-.
  apply insert_ticket_Ok in Hins as (_ & _ & ->).
  apply find_by_name_Some in Hfind as [Hin [= ->]].
  apply In_list_bookings, In_joined.
  eexists _, bus. cbn [buses tickets].
  split; [apply in_or_app; right; left; reflexivity |].
  split; [exact Hin | split; reflexivity].
Qed.

(** X19. Starting from empty tables, [view_bookings] fetches exactly one
    row per ticket, and each row is a ticket put together with the bus its
    [bus_id] refers to. *)
Theorem one_listed_row_per_ticket (rs : list request) :
  let st := run rs empty_store in
  Permutation (map Ticket.id (tickets st)) (map Booking.id (list_bookings st)) /\
  NoDup (map Booking.id (list_bookings st)) /\
  forall r, In r (list_bookings st) <->
            exists t b, In t (tickets st) /\ In b (buses st) /\
                        Bus.id b = Ticket.bus_id t /\ r = booking_of t b.
Proof.
  intros st. pose proof (reachable_consistent st (reachable_run rs)) as Hc.
  assert (Hperm : Permutation (map Ticket.id (tickets st))
                    (map Booking.id (list_bookings st))).
  { rewrite <- (joined_one_per_ticket st Hc).
    apply Permutation_map, order_by_perm. }
  split; [exact Hperm | split].
  - eapply Permutation_NoDup; [exact Hperm |].
    pose proof (proj2 (run_counted rs)) as Hcnt. fold st in Hcnt.
    rewrite Hcnt. apply ids_up_to_NoDup.
  - intros r. rewrite In_list_bookings. apply In_joined.
Qed.

(** X20. A successful [add_bus] adds one line at the end of the text
    [view_buses] returns, made of the trimmed name, origin and destination
    and the stored capacity; the lines before it stay as they were. *)
Theorem view_buses_gains_a_line (n f t : string) (c : pyval) (seats : Z)
    (st st' : store) :
  add_bus (Some n) (Some f) (Some t) c st = (Returned (BusAdded n seats), st') ->
  let line := (strip n ++ ": " ++ strip f ++ " → " ++ strip t
               ++ " (" ++ str_of_int seats ++ " seats)")%string in
  view_buses st'
  = match buses st with
    | [] => line
    | _ :: _ => (view_buses st ++ newline ++ line)%string
    end.
Proof.
  intros Hadd line.
  destruct (add_bus_inv (Some n) (Some f) (Some t) c st) as [[Hf _] | H];
    [rewrite Hadd in Hf; discriminate |].
  destruct H as (sn & sf & sd & seats0 & st0 & [= <-] & [= <-] & [= <-]
                 & _ & Hins & Heq).
  rewrite Hadd in Heq. injection Heq as <- <-.
  apply insert_bus_Ok in Hins as (_ & _ & ->).
  unfold view_buses. cbn [buses].
  match goal with |- context [buses st ++ [?r]] => set (row := r) end.
  destruct (buses st) as [| b l]; [reflexivity |].
  assert (Hmap : map bus_line ((b :: l) ++ [row])
                 = (bus_line b :: map bus_line l) ++ [bus_line row])
    by (now rewrite map_app).
  change (String.concat newline (map bus_line ((b :: l) ++ [row]))
          = (String.concat newline (map bus_line (b :: l)) ++ newline ++ line)%string).
  rewrite Hmap, concat_snoc. reflexivity.
Qed.

End Listings.

(** ** Bookings do not disturb each other *)

Section Independence.
Context {B : Builtins}.

(** The reply of [book_ticket] depends on the database only through the
    buses table and through whether the seat asked for is taken. *)
Lemma book_ticket_reply_same (p n d : option string) (sn : pyval)
    (st1 st2 : store) :
  buses st1 = buses st2 ->
  (forall bus seat sd,
      d = Some sd -> find_by_name n st1 = Some bus -> py_int sn = Ok seat ->
      seat_taken (Bus.id bus, strip sd, seat) st1
      = seat_taken (Bus.id bus, strip sd, seat) st2) ->
  fst (book_ticket p n d sn st1) = fst (book_ticket p n d sn st2).
Proof.
  intros Hb Htaken.
  assert (Hfind : find_by_name n st1 = find_by_name n st2)
    by (unfold find_by_name; now rewrite Hb).
  unfold book_ticket, book_ticket_try. rewrite <- Hfind.
  destruct (negb _); [reflexivity |].
  destruct (py_int sn) as [seat | e]; [| destruct e; reflexivity].
  destruct (find_by_name n st1) as [bus |]; [| reflexivity].
  destruct (negb _); [reflexivity |].
  destruct p as [sp |]; [| reflexivity].
  destruct d as [sd |]; [| reflexivity].
  simpl. unfold insert_ticket.
  rewrite (Htaken bus seat sd eq_refl eq_refl eq_refl).
  destruct (fits_int64 seat); [| reflexivity]. simpl.
  destruct (seat_taken _ st2); reflexivity.
Qed.

(** X21. A booking only affects requests for the same seat: starting from
    empty tables, after a successful [book_ticket] any request that differs
    in the bus name, in the trimmed date or in the seat number gets the reply
    it would have got before. *)
Theorem other_seats_are_unaffected (rs : list request) (p n d n' d' : string)
    (p' : option string) (sn sn' : pyval) (seat : Z) (st' : store) :
  book_ticket (Some p) (Some n) (Some d) sn (run rs empty_store)
  = (Returned (TicketBooked n d seat), st') ->
  n' <> n \/ strip d' <> strip d \/ py_int sn' <> Ok seat ->
  fst (book_ticket p' (Some n') (Some d') sn' st')
  = fst (book_ticket p' (Some n') (Some d') sn' (run rs empty_store)).
Proof.
  set (st := run rs empty_store). intros Hbook Hdiff.
  pose proof (reachable_consistent st (reachable_run rs)) as Hc.
  destruct (book_ticket_inv (Some p) (Some n) (Some d) sn st) as [[Hf _] | H];
    [rewrite Hbook in Hf; discriminate |].
  destruct H as (sp & sb & sd & seat0 & bus & st0 & [= <-] & [= <-] & [= <-]
                 & _ & Hfind & _ & Hins & Heq).
  rewrite Hbook in Heq. injection Heq as <- <-.
  apply insert_ticket_Ok in Hins as (_ & _ & ->).
  apply find_by_name_Some in Hfind as [Hin [= Hname]].
  apply book_ticket_reply_same; [reflexivity |].
  intros bus' seat' sd' [= <-] Hfind' Hint'.
  unfold seat_taken. cbn [tickets]. rewrite existsb_app. cbn [existsb].
  replace (key_eqb _ (Bus.id bus', strip d', seat')) with false;
    [now rewrite !orb_false_r |].
  symmetry. apply not_true_iff_false. intros Hk.
  apply key_eqb_eq in Hk. cbn in Hk. injection Hk as Hid Hdate Hseat.
  cbn [buses] in Hfind'.
  change (find_by_name (Some n') st = Some bus') in Hfind'.
  apply find_by_name_Some in Hfind' as [Hin' [= Hname']].
  destruct Hdiff as [Hn | [Hd | Hs]].
  - apply Hn. rewrite Hname, Hname'. f_equal.
    pose proof (filter_one_by_id bus (buses st) (bus_ids_unique st Hc) Hin) as Hf.
    assert (Hx : In bus' (filter (fun x => Bus.id bus =? Bus.id x) (buses st))).
    { apply filter_In. split; [assumption |]. apply Z.eqb_eq. congruence. }
    rewrite Hf in Hx. destruct Hx as [<- | []]. reflexivity.
  - apply Hd. congruence.
  - apply Hs. congruence.
Qed.

(** The rows of the join, ticket by ticket. *)
Lemma joined_rows (st : store) :
  consistent st ->
  Forall2 (fun t r => exists b, In b (buses st) /\ Bus.id b = Ticket.bus_id t
                                /\ r = booking_of t b)
          (tickets st) (joined st).
Proof.
  intros Hc. rewrite joined_booking_of.
  pose proof (tickets_refer st Hc) as Hrefer.
  induction Hrefer as [| t l (b & Hb & Hid & _) _ IH]; simpl; [constructor |].
  rewrite <- Hid, (filter_one_by_id b _ (bus_ids_unique st Hc) Hb). simpl.
  constructor; [exists b; auto | exact IH].
Qed.

End Independence.

(** The three columns [view_bookings] orders by. *)
Lemma order_key_determines_ticket (st : store) (t1 t2 : Ticket.row)
    (b1 b2 : Bus.row) :
  consistent st -> In b1 (buses st) -> In b2 (buses st) ->
  Bus.id b1 = Ticket.bus_id t1 -> Bus.id b2 = Ticket.bus_id t2 ->
  Booking.travel_date (booking_of t1 b1) = Booking.travel_date (booking_of t2 b2) ->
  Booking.bus_name (booking_of t1 b1) = Booking.bus_name (booking_of t2 b2) ->
  Booking.seat_number (booking_of t1 b1) = Booking.seat_number (booking_of t2 b2) ->
  Ticket.key t1 = Ticket.key t2.
Proof.
  intros Hc H1 H2 Hid1 Hid2 Hd Hn Hs. simpl in Hd, Hn, Hs.
  assert (Hb : b1 = b2).
  { pose proof (find_by_name_In b1 st (names_unique st Hc) H1) as F1.
    pose proof (find_by_name_In b2 st (names_unique st Hc) H2) as F2.
    rewrite Hn in F1. congruence. }
  unfold Ticket.key. congruence.
Qed.

Lemma Forall2_In_right {A C : Type} (R : A -> C -> Prop) (l : list A)
    (l' : list C) (y : C) :
  Forall2 R l l' -> In y l' -> exists x, In x l /\ R x y.
Proof.
  induction 1 as [| x y' l l' Hxy _ IH]; intros Hin; [contradiction |].
  destruct Hin as [<- | Hin]; [exists x; simpl; auto |].
  destruct (IH Hin) as (x' & Hx' & HR). exists x'. simpl. auto.
Qed.

Lemma joined_keys_NoDup (st : store) :
  consistent st -> NoDup (map order_key (joined st)).
Proof.
  intros Hc. pose proof (joined_rows st Hc) as Hrows.
  pose proof (keys_unique st Hc) as Hkeys. unfold no_double_booking in Hkeys.
  induction Hrows as [| t r ts rows (b & Hb & Hid & ->) Hrest IH]; simpl;
    [constructor |].
  simpl in Hkeys. apply NoDup_cons_iff in Hkeys as [Hnotin Hkeys].
  constructor; [| now apply IH].
  intros Hin. apply in_map_iff in Hin as (r' & Hkey & Hr').
  destruct (Forall2_In_right _ _ _ _ Hrest Hr') as (t' & Ht' & b' & Hb' & Hid' & ->).
  apply Hnotin. apply in_map_iff. exists t'. split; [| exact Ht'].
  unfold order_key in Hkey. injection Hkey as Hd Hn Hs.
  exact (order_key_determines_ticket st t' t b' b Hc Hb' Hb Hid' Hid Hd Hn Hs).
Qed.

Section Order.
Context {B : Builtins}.

(** X22. Starting from empty tables, no two rows of the bookings listing
    agree on travel date, bus name and seat number: the three sort keys
    leave no ties, so they fix the order of the listing completely. *)
Theorem listing_has_no_ties (rs : list request) :
  NoDup (map order_key (list_bookings (run rs empty_store))).
Proof.
  eapply Permutation_NoDup.
  - apply Permutation_map, order_by_perm.
  - apply joined_keys_NoDup, reachable_consistent, reachable_run.
Qed.

End Order.

(** ** Stored text is trimmed *)

Lemma drop_prefix_split (p l q : list N) :
  drop_prefix p l = Some q -> l = p ++ q.
Proof.
  revert l. induction p as [| x p IH]; intros [| y l]; simpl;
    try discriminate; try (intros [= <-]; reflexivity).
  destruct (N.eqb_spec x y) as [-> | _]; [| discriminate].
  intros H. now rewrite (IH l H).
Qed.

Lemma drop_prefix_app (p l q z : list N) :
  drop_prefix p l = Some q -> drop_prefix p (l ++ z) = Some (q ++ z).
Proof.
  revert l. induction p as [| x p IH]; intros [| y l]; simpl;
    try discriminate; try (intros [= <-]; reflexivity).
  destruct (x =? y)%N; [apply IH | discriminate].
Qed.

Lemma drop_one_app (table : list (list N)) (l q z : list N) :
  drop_one table l = Some q -> exists q', drop_one table (l ++ z) = Some q'.
Proof.
  induction table as [| p table IH]; simpl; [discriminate |].
  destruct (drop_prefix p l) as [r |] eqn:Hp.
  - intros _. rewrite (drop_prefix_app _ _ _ z Hp). eauto.
  - intros H. destruct (drop_prefix p (l ++ z)); eauto.
Qed.

Lemma drop_one_split (table : list (list N)) (l q : list N) :
  Forall (fun p => p <> []) table ->
  drop_one table l = Some q ->
  exists p, l = p ++ q /\ (List.length q < List.length l)%nat.
Proof.
  induction 1 as [| p table Hp _ IH]; simpl; [discriminate |].
  destruct (drop_prefix p l) as [r |] eqn:Hd; [| exact IH].
  intros [= <-]. apply drop_prefix_split in Hd. exists p. split; [exact Hd |].
  rewrite Hd, length_app. destruct p; [congruence | simpl; lia].
Qed.

Lemma drop_all_suffix (fuel : nat) (table : list (list N)) (l : list N) :
  Forall (fun p => p <> []) table ->
  exists pre, l = pre ++ drop_all fuel table l.
Proof.
  intros Ht. revert l. induction fuel as [| fuel IH]; intros l; simpl.
  - now exists [].
  - destruct (drop_one table l) as [r |] eqn:Hd; [| now exists []].
    destruct (drop_one_split _ _ _ Ht Hd) as (p & -> & _).
    destruct (IH r) as (pre & Hpre). exists (p ++ pre).
    rewrite <- app_assoc. now rewrite <- Hpre.
Qed.

Lemma drop_all_done (fuel : nat) (table : list (list N)) (l : list N) :
  Forall (fun p => p <> []) table -> (List.length l <= fuel)%nat ->
  drop_one table (drop_all fuel table l) = None.
Proof.
  intros Ht. revert l. induction fuel as [| fuel IH]; intros l Hlen; simpl.
  - destruct l; [| simpl in Hlen; lia].
    destruct (drop_one table []) as [r |] eqn:Hd; [| reflexivity].
    destruct (drop_one_split _ _ _ Ht Hd) as (_ & _ & Hlt). simpl in Hlt. lia.
  - destruct (drop_one table l) as [r |] eqn:Hd; [| exact Hd].
    destruct (drop_one_split _ _ _ Ht Hd) as (_ & _ & Hlt).
    apply IH. lia.
Qed.

Lemma drop_all_fixed (fuel : nat) (table : list (list N)) (l : list N) :
  drop_one table l = None -> drop_all fuel table l = l.
Proof. intros H. destruct fuel; simpl; [reflexivity | now rewrite H]. Qed.

Lemma whitespace_nonempty : Forall (fun p : list N => p <> []) whitespace.
Proof. unfold whitespace. repeat constructor; discriminate. Qed.

Lemma rev_whitespace_nonempty :
  Forall (fun p : list N => p <> []) (map (@rev N) whitespace).
Proof. unfold whitespace. simpl. repeat constructor; discriminate. Qed.

Lemma rstrip_lstrip_again (l : list N) :
  rstrip (lstrip (rstrip (lstrip l))) = rstrip (lstrip l).
Proof.
  set (a := lstrip l). set (r := rstrip a).
  assert (Ha : drop_one whitespace a = None)
    by (apply drop_all_done; [apply whitespace_nonempty | reflexivity]).
  assert (Hr : drop_one (map (@rev N) whitespace) (rev r) = None).
  { unfold r, rstrip. rewrite rev_involutive.
    apply drop_all_done; [apply rev_whitespace_nonempty |].
    now rewrite length_rev. }
  assert (Hpre : exists post, a = r ++ post).
  { unfold r, rstrip.
    destruct (drop_all_suffix (List.length a) (map (@rev N) whitespace) (rev a)
                rev_whitespace_nonempty) as (pre & Hpre).
    exists (rev pre). rewrite <- rev_app_distr, <- Hpre. now rewrite rev_involutive. }
  destruct Hpre as (post & Hpost).
  assert (Hl : lstrip r = r).
  { apply drop_all_fixed.
    destruct (drop_one whitespace r) as [q |] eqn:Hq; [| reflexivity].
    destruct (drop_one_app _ _ _ post Hq) as (q' & Hq').
    rewrite <- Hpost in Hq'. congruence. }
  rewrite Hl. unfold rstrip at 1. rewrite (drop_all_fixed _ _ _ Hr).
  apply rev_involutive.
Qed.

Lemma drop_all_elements (fuel : nat) (table : list (list N)) (l : list N) (x : N) :
  Forall (fun p => p <> []) table -> In x (drop_all fuel table l) -> In x l.
Proof.
  intros Ht Hin. destruct (drop_all_suffix fuel table l Ht) as (pre & Hpre).
  rewrite Hpre. apply in_or_app. now right.
Qed.

Lemma bytes_of_strip (s : string) :
  map N_of_ascii (list_ascii_of_string (strip s))
  = rstrip (lstrip (map N_of_ascii (list_ascii_of_string s))).
Proof.
  unfold strip. rewrite list_ascii_of_string_of_list_ascii, map_map.
  set (l := map N_of_ascii (list_ascii_of_string s)).
  assert (Hall : forall x, In x (rstrip (lstrip l)) -> N_of_ascii (ascii_of_N x) = x).
  { intros x Hx. unfold rstrip in Hx. apply in_rev in Hx.
    apply drop_all_elements in Hx; [| apply rev_whitespace_nonempty].
    apply in_rev in Hx. unfold lstrip in Hx.
    apply drop_all_elements in Hx; [| apply whitespace_nonempty].
    unfold l in Hx. apply in_map_iff in Hx as (a & <- & _).
    now rewrite ascii_N_embedding. }
  induction (rstrip (lstrip l)) as [| x r IH]; simpl; [reflexivity |].
  rewrite Hall by (now left). f_equal. apply IH. intros y Hy. apply Hall. now right.
Qed.

(** Trimming twice is trimming once. *)
Lemma strip_trimmed (s : string) : trimmed (strip s).
Proof.
  unfold trimmed. unfold strip at 1.
  rewrite bytes_of_strip, rstrip_lstrip_again. reflexivity.
Qed.

Section Trimmed.
Context {B : Builtins}.

Lemma handle_texts_trimmed (r : request) (st : store) :
  texts_trimmed st -> texts_trimmed (snd (handle r st)).
Proof.
  intros [Hb Ht]. destruct r as [n f t c | p n d sn]; simpl.
  - destruct (add_bus_effect n f t c st) as [-> | H]; [now split |].
    destruct H as (? & ? & ? & ? & _ & _ & _ & _ & _ & ->).
    split; simpl; [| exact Ht].
    apply Forall_app. split; [exact Hb |].
    repeat constructor; simpl; apply strip_trimmed.
  - destruct (book_ticket_effect p n d sn st) as [-> | H]; [now split |].
    destruct H as (? & ? & ? & ? & _ & _ & _ & _ & _ & ->).
    split; simpl; [exact Hb |].
    apply Forall_app. split; [exact Ht |].
    repeat constructor; simpl; apply strip_trimmed.
Qed.

Lemma run_texts_trimmed (rs : list request) : texts_trimmed (run rs empty_store).
Proof.
  induction rs as [| r rs IH] using rev_ind; [split; constructor |].
  rewrite run_snoc. now apply handle_texts_trimmed.
Qed.

(** X23. Starting from empty tables, every text in the database is stored
    trimmed: no bus name, origin or destination and no passenger name or
    travel date begins or ends with whitespace, so [strip] leaves each of
    them as it is. *)
Theorem stored_text_is_trimmed (rs : list request) :
  (forall b, In b (buses (run rs empty_store)) ->
             trimmed (Bus.bus_name b) /\ trimmed (Bus.from_city b)
             /\ trimmed (Bus.to_city b)) /\
  (forall t, In t (tickets (run rs empty_store)) ->
             trimmed (Ticket.passenger_name t)
             /\ trimmed (Ticket.travel_date t)).
Proof.
  destruct (run_texts_trimmed rs) as [Hb Ht].
  split; intros x Hx.
  - exact (proj1 (Forall_forall _ _) Hb x Hx).
  - exact (proj1 (Forall_forall _ _) Ht x Hx).
Qed.

(** X24. A bus that is offered cannot be added again: starting from empty
    tables, [add_bus] under any non-empty name that [get_bus_choices]
    returns, with origin and destination present and a capacity that
    converts to an integer from 1 to [2^63 - 1], answers 'That bus name
    already exists.' and changes nothing. *)
Theorem offered_name_cannot_be_added_again (rs : list request) (n f t : string)
    (c : pyval) (seats : Z) :
  let st := run rs empty_store in
  In n (get_bus_choices st) ->
  n <> EmptyString -> f <> EmptyString -> t <> EmptyString ->
  (x <- py_float c ;; int_of_float x) = Ok seats -> 1 <= seats <= 2 ^ 63 - 1 ->
  add_bus (Some n) (Some f) (Some t) c st = (Returned BusNameExists, st).
Proof.
  intros st Hin Hn Hf Ht Hc Hseats.
  apply In_get_bus_choices in Hin.
  assert (Htrim : strip n = n).
  { apply in_map_iff in Hin as (b & <- & Hb).
    destruct (run_texts_trimmed rs) as [Hall _].
    exact (proj1 (proj1 (Forall_forall _ _) Hall b Hb)). }
  assert (Htaken : name_taken (strip n) st = true).
  { rewrite Htrim. destruct (name_taken n st) eqn:E; [reflexivity |].
    apply name_taken_false in E. contradiction. }
  rewrite (add_bus_converted _ _ _ _ _ _ Hn Hf Ht Hc).
  replace (seats <=? 0) with false by (symmetry; apply Z.leb_gt; lia).
  unfold insert_bus. rewrite Htaken.
  replace (fits_int64 seats) with true by (symmetry; apply fits_int64_iff; lia).
  replace (0 <? seats) with true by (symmetry; apply Z.ltb_lt; lia).
  reflexivity.
Qed.

End Trimmed.

(** ** Blank names and repeated requests *)

Section Repeats.
Context {B : Builtins}.

(** X25. A bus stored under the empty name (which [add_bus] does for a name
    made of whitespace) can never be booked: the only bus name that finds it
    is the empty one, and [book_ticket] answers that with 'All fields are
    required.' *)
Theorem blank_named_bus_is_unbookable (p n d : option string) (sn : pyval)
    (st : store) (bus : Bus.row) :
  find_by_name n st = Some bus -> Bus.bus_name bus = EmptyString ->
  book_ticket p n d sn st = (Returned AllFieldsRequired, st).
Proof.
  intros Hfind Hname. apply find_by_name_Some in Hfind as [_ ->].
  rewrite Hname. unfold book_ticket. cbn [text_truthy].
  rewrite andb_false_r. reflexivity.
Qed.

(** X26. Sending the same request twice in a row never books or adds
    twice: whatever the request and the database, the second of two identical
    calls does not succeed and leaves the database as the first call left
    it. *)
Theorem repeated_request_does_nothing (r : request) (st : store) :
  succeeded (fst (handle r (snd (handle r st)))) = false /\
  snd (handle r (snd (handle r st))) = snd (handle r st).
Proof.
  assert (Hfail : succeeded (fst (handle r (snd (handle r st)))) = false).
  { destruct r as [n f t c | p n d sn]; simpl.
    - destruct (add_bus_inv n f t c st) as [[Hs ->] | H]; [exact Hs |].
      destruct H as (sn & sf & sd & seats & st' & -> & -> & -> & _ & Hins & ->).
      cbn [snd].
      destruct (add_bus_inv (Some sn) (Some sf) (Some sd) c st')
        as [[Hs _] | H]; [exact Hs | exfalso].
      destruct H as (sn' & ? & ? & ? & ? & [= <-] & _ & _ & _ & Hins' & _).
      apply insert_bus_Ok in Hins as (_ & _ & ->).
      apply insert_bus_Ok in Hins' as (_ & Hfree & _).
      apply Hfree. cbn [buses]. rewrite map_app. apply in_or_app.
      right. left. reflexivity.
    - destruct (book_ticket_inv p n d sn st) as [[Hs ->] | H]; [exact Hs |].
      destruct H as (sp & sb & sd & seat & bus & st' & -> & -> & -> & Hint
                     & Hfind & _ & Hins & ->).
      cbn [snd].
      destruct (book_ticket_inv (Some sp) (Some sb) (Some sd) sn st')
        as [[Hs _] | H]; [exact Hs | exfalso].
      destruct H as (? & ? & sd' & seat' & bus' & ? & _ & _ & [= <-] & Hint'
                     & Hfind' & _ & Hins' & _).
      apply insert_ticket_Ok in Hins as (_ & _ & ->).
      apply insert_ticket_Ok in Hins' as (_ & Hfree & _).
      assert (bus' = bus)
        by (unfold find_by_name in *; cbn [buses] in Hfind'; congruence).
      assert (seat' = seat) by congruence. subst.
      apply Hfree. cbn [tickets]. rewrite map_app. apply in_or_app.
      right. left. reflexivity. }
  split; [exact Hfail |].
  destruct r as [n f t c | p n d sn]; simpl in *.
  - destruct (add_bus_inv n f t c (snd (add_bus n f t c st)))
      as [[_ H] | H]; [exact H |].
    destruct H as (? & ? & ? & ? & ? & _ & _ & _ & _ & _ & Heq).
    rewrite Heq in Hfail. discriminate.
  - destruct (book_ticket_inv p n d sn (snd (book_ticket p n d sn st)))
      as [[_ H] | H]; [exact H |].
    destruct H as (? & ? & ? & ? & ? & ? & _ & _ & _ & _ & _ & _ & _ & Heq).
    rewrite Heq in Hfail. discriminate.
Qed.

End Repeats.

(** ** The bus listing of an empty table *)

Lemma list_ascii_of_append (s1 s2 : string) :
  list_ascii_of_string (s1 ++ s2)
  = list_ascii_of_string s1 ++ list_ascii_of_string s2.
Proof. induction s1 as [| a s1 IH]; simpl; [reflexivity | now rewrite IH]. Qed.

(** Every line of the bus listing carries the arrow, whose first byte is
    226. *)
Lemma bus_line_has_arrow (b : Bus.row) :
  In (ascii_of_nat 226) (list_ascii_of_string (bus_line b)).
Proof.
  unfold bus_line. rewrite !list_ascii_of_append.
  apply in_or_app. right. apply in_or_app. right.
  apply in_or_app. right. apply in_or_app. left.
  simpl. right. left. reflexivity.
Qed.

Lemma concat_starts_with (sep x : string) (l : list string) :
  exists rest, String.concat sep (x :: l) = (x ++ rest)%string.
Proof.
  destruct l as [| y l].
  - exists EmptyString. simpl. induction x as [| a x IH]; simpl; congruence.
  - eexists. reflexivity.
Qed.

(** X27. [view_buses] returns 'No buses available.' exactly when the buses
    table is empty: no stored bus, whatever its name and cities, makes the
    listing read like that message. *)
Theorem view_buses_empty_iff (st : store) :
  view_buses st = "No buses available."%string <-> buses st = [].
Proof.
  unfold view_buses. split.
  - destruct (buses st) as [| b l]; [reflexivity |]. intros Heq. exfalso.
    destruct (concat_starts_with newline (bus_line b) (map bus_line l))
      as (rest & Hrest).
    change (map bus_line (b :: l)) with (bus_line b :: map bus_line l) in Heq.
    rewrite Hrest in Heq.
    assert (Hin : In (ascii_of_nat 226)
                    (list_ascii_of_string "No buses available.")).
    { rewrite <- Heq, list_ascii_of_append. apply in_or_app. left.
      apply bus_line_has_arrow. }
    simpl in Hin.
    repeat (destruct Hin as [Hin | Hin]; [discriminate |]). exact Hin.
  - intros ->. reflexivity.
Qed.

(** * Concrete runs *)

#[local] Existing Instance decimal_builtins.

Example one_bus_rows : one_bus = {| buses := [express1]; tickets := [] |}.
Proof. reflexivity. Qed.

(** The scenario of the specification. *)
Example scenario :
  let alice := book_ticket (Some "Alice"%string) (Some "Express1"%string)
                 (Some "2024-05-01"%string) (PInt 5) one_bus in
  let booked := snd alice in
  fst alice = Returned (TicketBooked "Express1" "2024-05-01" 5) /\
  fst (book_ticket (Some "Bob"%string) (Some "Express1"%string)
         (Some "2024-05-01"%string) (PInt 5) booked) = Returned SeatTaken /\
  fst (book_ticket (Some "Bob"%string) (Some "Express1"%string)
         (Some "2024-05-01"%string) (PInt 41) booked)
  = Returned (SeatOutOfRange 40) /\
  fst (book_ticket (Some "Carol"%string) (Some "Nonexistent"%string)
         (Some "2024-05-01"%string) (PInt 1) booked) = Returned BusNotFound /\
  view_bookings booked = "#1 Alice → Express1 on 2024-05-01 (Seat 5)"%string.
Proof. repeat split. Qed.

(** Numbers too large for the conversions escape as [OverflowError]; the
    tables are untouched. *)
Example infinite_capacity_raises :
  add_bus (Some "Express2"%string) (Some "CityA"%string) (Some "CityB"%string)
    (PFloat (FInf false)) one_bus = (Raised OverflowError, one_bus) /\
  add_bus (Some "Express2"%string) (Some "CityA"%string) (Some "CityB"%string)
    (PInt (10 ^ 30)) one_bus = (Raised OverflowError, one_bus).
Proof. split; vm_compute; reflexivity. Qed.

(** A capacity above [2^53] is stored rounded. *)
Example large_capacity_is_rounded :
  fst (add_bus (Some "Express2"%string) (Some "CityA"%string)
         (Some "CityB"%string) (PInt (2 ^ 53 + 1)) one_bus)
  = Returned (BusAdded "Express2" (2 ^ 53)).
Proof. vm_compute. reflexivity. Qed.

(** C1, at Alice and Bob asking for seat 5 of Express1. *)
Lemma same_seat_first_wins_witness :
  exists st1,
    book_ticket (Some "Alice"%string) (Some "Express1"%string)
      (Some "2024-05-01"%string) (PInt 5) one_bus
    = (Returned (TicketBooked "Express1" "2024-05-01" 5), st1) /\
    book_ticket (Some "Bob"%string) (Some "Express1"%string)
      (Some "2024-05-01"%string) (PInt 5) st1 = (Returned SeatTaken, st1).
Proof.
  refine (proj1 (same_seat_first_wins "Alice" "Bob" "Express1" "2024-05-01"
                   (PInt 5) 5 express1 one_bus _ _ _ _ _ _ _ _ _ _)).
  - apply (reachable_run [add_express1]).
  - discriminate.
  - discriminate.
  - discriminate.
  - discriminate.
  - reflexivity.
  - reflexivity.
  - reflexivity.
  - simpl. lia.
  - reflexivity.
Defined.

(** C2, at a second booking of a taken seat. *)
Lemma seat_triples_stay_unique_witness :
  no_double_booking
    (snd (handle (BookTicket (Some "Bob"%string) (Some "Express1"%string)
                    (Some "2024-05-01"%string) (PInt 5))
            (run [add_express1;
                  BookTicket (Some "Alice"%string) (Some "Express1"%string)
                    (Some "2024-05-01"%string) (PInt 5)] empty_store))).
Proof.
  apply (proj2 seat_triples_stay_unique).
  apply (proj1 seat_triples_stay_unique).
Defined.

(** C3 as stated fails: the bus that [add_bus("   ", "CityA", "CityB", 40)]
    stores has capacity 40 and seat 1 free, yet no call books it: its stored
    name, the empty text, is refused as a missing field, and the name it was
    added under finds no bus. *)
Lemma blank_bus_seat_is_not_bookable :
  let bus := {| Bus.id := 1; Bus.bus_name := ""; Bus.from_city := "CityA";
                Bus.to_city := "CityB"; Bus.total_seats := 40 |} in
  buses blank_bus = [bus] /\
  seat_taken (Bus.id bus, strip "2024-05-01", 1) blank_bus = false /\
  book_ticket (Some "Alice"%string) (Some (Bus.bus_name bus))
    (Some "2024-05-01"%string) (PInt 1) blank_bus
  = (Returned AllFieldsRequired, blank_bus) /\
  book_ticket (Some "Alice"%string) (Some "   "%string)
    (Some "2024-05-01"%string) (PInt 1) blank_bus
  = (Returned BusNotFound, blank_bus).
Proof. repeat split. Qed.

(** C3, amended, at Express1 with its 40 seats: seats 5 and 40 are booked,
    seats 0 and 41 refused. *)
Lemma seat_range_one_to_capacity_witness :
  book_ticket (Some "Alice"%string) (Some "Express1"%string)
    (Some "2024-05-01"%string) (PInt 5) one_bus
  = (Returned (TicketBooked "Express1" "2024-05-01" 5), one_booking) /\
  fst (book_ticket (Some "Alice"%string) (Some "Express1"%string)
         (Some "2024-05-01"%string) (PInt 40) one_bus)
  = Returned (TicketBooked "Express1" "2024-05-01" 40) /\
  book_ticket (Some "Alice"%string) (Some "Express1"%string)
    (Some "2024-05-01"%string) (PInt 0) one_bus
  = (Returned AllFieldsRequired, one_bus) /\
  book_ticket (Some "Alice"%string) (Some "Express1"%string)
    (Some "2024-05-01"%string) (PInt 41) one_bus
  = (Returned (SeatOutOfRange 40), one_bus).
Proof.
  assert (Hin : In express1 (buses one_bus)) by (left; reflexivity).
  assert (Hn : Bus.bus_name express1 <> EmptyString) by discriminate.
  assert (Hp : "Alice"%string <> EmptyString) by discriminate.
  assert (Hd : "2024-05-01"%string <> EmptyString) by discriminate.
  destruct (seat_range_one_to_capacity "Alice" "2024-05-01" express1 one_bus
              (reachable_run [add_express1]) Hin Hp Hd)
    as (Hbook & (H0 & _) & _ & H41).
  assert (H5 : 1 <= 5 <= Bus.total_seats express1) by (simpl; lia).
  assert (H40 : 1 <= 40 <= Bus.total_seats express1) by (simpl; lia).
  split; [exact (Hbook Hn 5 H5 eq_refl) |].
  split; [exact (f_equal fst (Hbook Hn 40 H40 eq_refl)) |].
  split; [exact H0 | exact (H41 Hn)].
Defined.

(** C4 as stated fails: a name made of three spaces is empty once trimmed,
    yet [add_bus] succeeds and stores a bus with the empty name. *)
Lemma blank_name_is_accepted :
  let call := add_bus (Some "   "%string) (Some "CityA"%string)
                (Some "CityB"%string) (PInt 40) empty_store in
  strip "   " = EmptyString /\
  fst call = Returned (BusAdded "   " 40) /\
  failure (fst call) <> Some ValidationError /\
  buses (snd call)
  = [ {| Bus.id := 1; Bus.bus_name := ""; Bus.from_city := "CityA";
         Bus.to_city := "CityB"; Bus.total_seats := 40 |} ].
Proof. repeat split. discriminate. Qed.

(** C4, amended, at a missing origin and at a missing capacity. *)
Lemma add_bus_rejects_absent_fields_witness :
  (failure (fst (add_bus (Some "Express2"%string) None (Some "CityB"%string)
                   (PInt 40) one_bus)) = Some ValidationError /\
   snd (add_bus (Some "Express2"%string) None (Some "CityB"%string)
          (PInt 40) one_bus) = one_bus) /\
  (failure (fst (add_bus (Some "Express2"%string) (Some "CityA"%string)
                   (Some "CityB"%string) PNone one_bus))
   = Some ValidationError /\
   snd (add_bus (Some "Express2"%string) (Some "CityA"%string)
          (Some "CityB"%string) PNone one_bus) = one_bus).
Proof.
  split.
  - apply add_bus_rejects_absent_fields. left. right. left. reflexivity.
  - apply add_bus_rejects_absent_fields. right. left. reflexivity.
Defined.

(** C5 as stated fails: seat number 3.5 is not refused, seat 3 is booked. *)
Lemma fractional_seat_is_booked :
  let call := book_ticket (Some "Alice"%string) (Some "Express1"%string)
                (Some "2024-05-01"%string) (PFloat three_and_a_half) one_bus in
  fst call = Returned (TicketBooked "Express1" "2024-05-01" 3) /\
  failure (fst call) <> Some ValidationError /\
  tickets (snd call)
  = [ {| Ticket.id := 1; Ticket.passenger_name := "Alice";
         Ticket.bus_id := 1; Ticket.travel_date := "2024-05-01";
         Ticket.seat_number := 3 |} ].
Proof. repeat split. discriminate. Qed.

(** C5, amended, at the text ["3.5"] and at the number 3.5. *)
Lemma seat_number_is_converted_by_int_witness :
  (failure (fst (book_ticket (Some "Alice"%string) (Some "Express1"%string)
                   (Some "2024-05-01"%string) (PStr "3.5") one_bus))
   = Some ValidationError /\
   snd (book_ticket (Some "Alice"%string) (Some "Express1"%string)
          (Some "2024-05-01"%string) (PStr "3.5") one_bus) = one_bus) /\
  book_ticket (Some "Alice"%string) (Some "Express1"%string)
    (Some "2024-05-01"%string) (PFloat three_and_a_half) one_bus
  = book_ticket (Some "Alice"%string) (Some "Express1"%string)
      (Some "2024-05-01"%string) (PInt 3) one_bus.
Proof.
  split.
  - apply (proj1 (seat_number_is_converted_by_int _ _ _ _)). reflexivity.
  - apply (proj2 (seat_number_is_converted_by_int _ _ _ _)).
    + reflexivity.
    + discriminate.
Defined.

(** C6, at the capacity 40.5. *)
Lemma add_bus_truncates_fractional_capacity_witness :
  add_bus (Some "Express2"%string) (Some "CityA"%string) (Some "CityB"%string)
    (PFloat forty_and_a_half) one_bus
  = (Returned (BusAdded "Express2" 40),
     {| buses := [ express1;
                   {| Bus.id := 2; Bus.bus_name := "Express2";
                      Bus.from_city := "CityA"; Bus.to_city := "CityB";
                      Bus.total_seats := 40 |} ];
        tickets := [] |}).
Proof.
  refine (proj2 (add_bus_truncates_fractional_capacity "Express2" "CityA"
                   "CityB" (PFloat forty_and_a_half) 81 (-1) one_bus
                   _ _ _ _ _ _ _ _ _)).
  - discriminate.
  - discriminate.
  - discriminate.
  - reflexivity.
  - reflexivity.
  - lia.
  - discriminate.
  - simpl. lia.
  - reflexivity.
Defined.



(** C9 as stated fails: the bus added under [" Express1"] is stored as
    ["Express1"], and an exact lookup of the name that was passed finds
    nothing. *)
Lemma padded_name_is_not_found :
  let call := add_bus (Some " Express1"%string) (Some "CityA"%string)
                (Some "CityB"%string) (PInt 40) empty_store in
  fst call = Returned (BusAdded " Express1" 40) /\
  find_by_name (Some " Express1"%string) (snd call) = None /\
  map Bus.bus_name (buses (snd call)) = ["Express1"%string].
Proof. repeat split. Qed.

(** C9, amended, at the same padded name. *)
Lemma add_bus_then_find_by_name_witness :
  find_by_name (Some "Express1"%string)
    (snd (add_bus (Some " Express1"%string) (Some "CityA "%string)
            (Some "CityB"%string) (PInt 40) empty_store))
  = Some express1.
Proof.
  refine (proj1 (proj2 (add_bus_then_find_by_name " Express1" "CityA " "CityB"
                          (PInt 40) 40 empty_store _ _ _ _ _ _))).
  - discriminate.
  - discriminate.
  - discriminate.
  - reflexivity.
  - lia.
  - reflexivity.
Defined.

(** C10, at a capacity left out and at an empty one. *)
Lemma missing_capacity_is_not_a_number_witness :
  add_bus (Some "Express2"%string) (Some "CityA"%string) (Some "CityB"%string)
    PNone one_bus = (Returned SeatsNotNumber, one_bus) /\
  add_bus (Some "Express2"%string) (Some "CityA"%string) (Some "CityB"%string)
    (PStr "") one_bus = (Returned SeatsNotNumber, one_bus).
Proof.
  split.
  - refine (proj1 (missing_capacity_is_not_a_number _ _ _ PNone one_bus
                     _ _ _ _)); auto.
  - refine (proj1 (missing_capacity_is_not_a_number _ _ _ (PStr "") one_bus
                     _ _ _ _)); auto.
Defined.

(** X4, at Express1. *)
Lemma bus_rows_are_well_formed_witness :
  1 <= Bus.total_seats express1 <= 2 ^ 63 - 1.
Proof.
  apply (proj2 (proj2 (bus_rows_are_well_formed [add_express1]))).
  left. reflexivity.
Defined.

(** X5, at Alice's ticket. *)
Lemma tickets_refer_to_buses_witness :
  exists b,
    In b (buses one_booking) /\ Bus.id b = 1 /\
    1 <= 5 <= Bus.total_seats b /\
    forall b', In b' (buses one_booking) -> Bus.id b' = 1 -> b' = b.
Proof.
  apply (tickets_refer_to_buses [add_express1; book_alice]
           {| Ticket.id := 1; Ticket.passenger_name := "Alice";
              Ticket.bus_id := 1; Ticket.travel_date := "2024-05-01";
              Ticket.seat_number := 5 |}).
  left. reflexivity.
Defined.

(** X6, at Express1 on 2024-05-01. *)
Lemma no_bus_is_overbooked_witness :
  (List.length (booked_on 1 "2024-05-01" one_booking) <= 40)%nat.
Proof.
  apply (no_bus_is_overbooked [add_express1; book_alice] express1 "2024-05-01").
  left. reflexivity.
Defined.


(** X9, at a second bus with a padded name. *)
Lemma add_bus_offers_the_trimmed_name_witness :
  Permutation ("Express2"%string :: get_bus_choices one_bus)
    (get_bus_choices
       (snd (add_bus (Some " Express2 "%string) (Some "CityA"%string)
               (Some "CityB"%string) (PInt 30) one_bus))).
Proof.
  apply (proj1 (add_bus_offers_the_trimmed_name " Express2 " (Some "CityA"%string)
                  (Some "CityB"%string) (PInt 30) one_bus)).
  reflexivity.
Defined.

(** X10, at the first bus. *)
Lemma add_bus_succeeds_iff_witness :
  exists sn sf sd seats,
    Some "Express1"%string = Some sn /\ Some "CityA"%string = Some sf /\
    Some "CityB"%string = Some sd /\
    sn <> EmptyString /\ sf <> EmptyString /\ sd <> EmptyString /\
    (x <- py_float (PInt 40) ;; int_of_float x) = Ok seats /\
    1 <= seats <= 2 ^ 63 - 1 /\
    ~ In (strip sn) (get_bus_choices empty_store).
Proof.
  apply (proj1 (add_bus_succeeds_iff (Some "Express1"%string)
                  (Some "CityA"%string) (Some "CityB"%string) (PInt 40)
                  empty_store)).
  reflexivity.
Defined.

(** X11, at Alice's booking. *)
Lemma book_ticket_succeeds_iff_witness :
  succeeded (fst (book_ticket (Some "Alice"%string) (Some "Express1"%string)
                    (Some "2024-05-01"%string) (PInt 5) one_bus)) = true.
Proof.
  apply (proj2 (book_ticket_succeeds_iff _ _ _ _ _)).
  exists "Alice"%string, "Express1"%string, "2024-05-01"%string, 5, express1.
  repeat split; try discriminate; try reflexivity; lia.
Defined.



(** X14, at the capacity 0.5. *)
Lemma add_bus_refuses_capacity_below_one_witness :
  add_bus (Some "Express2"%string) (Some "CityA"%string) (Some "CityB"%string)
    (PFloat (FFinite 1 (-1))) one_bus = (Returned SeatsNotPositive, one_bus).
Proof.
  apply (add_bus_refuses_capacity_below_one "Express2" "CityA" "CityB"
           (PFloat (FFinite 1 (-1))) 1 (-1) one_bus).
  - discriminate.
  - discriminate.
  - discriminate.
  - reflexivity.
  - simpl. lia.
Defined.

(** X15, at Bob asking for Alice's seat after another bus was added. *)
Lemma booked_seat_stays_booked_witness :
  book_ticket (Some "Bob"%string) (Some "Express1"%string)
    (Some " 2024-05-01 "%string) (PStr "5")
    (run [AddBus (Some "Express2"%string) (Some "CityA"%string)
            (Some "CityB"%string) (PInt 30)] one_booking)
  = (Returned SeatTaken,
     run [AddBus (Some "Express2"%string) (Some "CityA"%string)
            (Some "CityB"%string) (PInt 30)] one_booking).
Proof.
  apply (booked_seat_stays_booked "Alice" "Express1" "2024-05-01" "Bob"
           " 2024-05-01 " (PInt 5) (PStr "5") 5 one_bus one_booking).
  - reflexivity.
  - discriminate.
  - discriminate.
  - reflexivity.
  - reflexivity.
  - reflexivity.
Defined.

(** X16, before any booking. *)
Lemma view_bookings_empty_iff_witness :
  view_bookings one_bus = "No bookings yet."%string.
Proof.
  apply (proj2 (view_bookings_empty_iff [add_express1])). reflexivity.
Defined.

(** X18, at Alice's booking. *)
Lemma booked_ticket_is_listed_witness :
  In {| Booking.id := 1; Booking.passenger_name := "Alice";
        Booking.bus_name := "Express1"; Booking.travel_date := "2024-05-01";
        Booking.seat_number := 5 |} (list_bookings one_booking).
Proof.
  apply (booked_ticket_is_listed "Alice" "Express1" "2024-05-01" (PInt 5) 5
           one_bus one_booking).
  reflexivity.
Defined.

(** X19, at the listing after Alice's booking. *)
Lemma one_listed_row_per_ticket_witness :
  exists t b,
    In t (tickets one_booking) /\ In b (buses one_booking) /\
    Bus.id b = Ticket.bus_id t /\
    {| Booking.id := 1; Booking.passenger_name := "Alice";
       Booking.bus_name := "Express1"; Booking.travel_date := "2024-05-01";
       Booking.seat_number := 5 |} = booking_of t b.
Proof.
  apply (proj1 (proj2 (proj2 (one_listed_row_per_ticket
                                [add_express1; book_alice])) _)).
  left. reflexivity.
Defined.

(** X20, at a second bus. *)
Lemma view_buses_gains_a_line_witness :
  view_buses (snd (add_bus (Some " Express2"%string) (Some "CityA"%string)
                     (Some "CityB"%string) (PInt 30) one_bus))
  = (view_buses one_bus ++ newline
     ++ "Express2: CityA → CityB (30 seats)")%string.
Proof.
  apply (view_buses_gains_a_line " Express2" "CityA" "CityB" (PInt 30) 30
           one_bus).
  reflexivity.
Defined.

(** X21, at seat 6 after seat 5 was booked. *)
Lemma other_seats_are_unaffected_witness :
  fst (book_ticket (Some "Bob"%string) (Some "Express1"%string)
         (Some "2024-05-01"%string) (PInt 6) one_booking)
  = fst (book_ticket (Some "Bob"%string) (Some "Express1"%string)
           (Some "2024-05-01"%string) (PInt 6) one_bus).
Proof.
  apply (other_seats_are_unaffected [add_express1] "Alice" "Express1"
           "2024-05-01" "Express1" "2024-05-01" (Some "Bob"%string)
           (PInt 5) (PInt 6) 5 one_booking).
  - reflexivity.
  - right. right. discriminate.
Defined.

(** X23, at Express1. *)
Lemma stored_text_is_trimmed_witness :
  trimmed (Bus.bus_name express1) /\ trimmed (Bus.from_city express1)
  /\ trimmed (Bus.to_city express1).
Proof.
  apply (proj1 (stored_text_is_trimmed [add_express1])).
  left. reflexivity.
Defined.

(** X24, at a second Express1. *)
Lemma offered_name_cannot_be_added_again_witness :
  add_bus (Some "Express1"%string) (Some "CityC"%string) (Some "CityD"%string)
    (PInt 30) one_bus = (Returned BusNameExists, one_bus).
Proof.
  apply (offered_name_cannot_be_added_again [add_express1] "Express1" "CityC"
           "CityD" (PInt 30) 30).
  - left. reflexivity.
  - discriminate.
  - discriminate.
  - discriminate.
  - reflexivity.
  - lia.
Defined.

(** X25, at the bus that was added under three spaces. *)
Lemma blank_named_bus_is_unbookable_witness :
  book_ticket (Some "Alice"%string) (Some ""%string) (Some "2024-05-01"%string)
    (PInt 1) blank_bus = (Returned AllFieldsRequired, blank_bus).
Proof.
  apply (blank_named_bus_is_unbookable (Some "Alice"%string) (Some ""%string)
           (Some "2024-05-01"%string) (PInt 1) blank_bus
           {| Bus.id := 1; Bus.bus_name := ""; Bus.from_city := "CityA";
              Bus.to_city := "CityB"; Bus.total_seats := 40 |}).
  - reflexivity.
  - reflexivity.
Defined.

(** X27, at the empty table. *)
Lemma view_buses_empty_iff_witness :
  view_buses empty_store = "No buses available."%string.
Proof. apply (proj2 (view_buses_empty_iff empty_store)). reflexivity. Defined.
